(** * DalleBart (dalle_mini/model/modeling.py): a shallow embedding

    The development follows the source file top-down: the attention
    module's constructor, the module tree built by the [setup] methods,
    the pretrained-model wrapper (checkpoint deserialisation and
    reconciliation), and the decoding entry points [decode] and
    [prepare_inputs_for_generation].

    Python integers are unbounded and are modelled by [Z]; dictionaries
    that are only read are [gmap]s, sets are [gset]s, and the checkpoint
    dictionary, which is iterated and updated in place, is an association
    list in insertion order.  Code that can raise returns [res]. *)

From Stdlib Require Import ZArith QArith.
From stdpp Require Import gmap strings list fin_maps pretty.

Local Open Scope Z_scope.

(** ** Python exceptions and fallible results *)

Module Py.

(** A structured path in a flattened parameter dictionary: the tuple of
    module-path segments that [flatten_dict] produces. *)
Abbreviation path := (list string).

(** The messages the source formats; the interpolated values of each
    f-string are kept as fields. *)
Inductive message : Type :=
| MsgNone
| MsgEmbedDimNotDivisible (embed_dim num_heads : Z)
| MsgConfigNone
| MsgShapeMismatch (key : path) (checkpoint_shape model_shape : list Z)
| MsgGitLfs
| MsgUnableToConvert (archive_file : string)
| MsgProvidePositionIds
| MsgNegativeDimension (dim : Z)
| MsgMathDomain
| MsgUpdateTooLarge (update_shape operand_shape : list Z)
  | MsgOther (text : string).

(** The exception classes that occur.  [EnvironmentError] is an alias of
    [OSError]; [UnicodeDecodeError] is a subclass of [ValueError];
    [OtherException] stands for any class outside this list. *)
Inductive exn : Type :=
| ValueError (m : message)
| OSError (m : message)
| TypeError (m : message)
| KeyError (key : path)
| ZeroDivisionError
| UnicodeDecodeError
| UnpicklingError
| ExtraData
| OtherException (class_name : string).

Inductive res (A : Type) : Type :=
| Ok (a : A)
| Raise (e : exn).
Arguments Ok {A} a.
Arguments Raise {A} e.

Definition bind {A B : Type} (r : res A) (k : A → res B) : res B :=
  match r with
  | Ok a => k a
  | Raise e => Raise e
  end.

Definition succeeds {A : Type} (r : res A) : Prop := ∃ a, r = Ok a.
Definition fails {A : Type} (r : res A) : Prop := ∃ e, r = Raise e.

(** [isinstance(e, ValueError)] for the classes above. *)
Definition is_ValueError (e : exn) : bool :=
  match e with
  | ValueError _ | UnicodeDecodeError | ExtraData => true
  | _ => false
  end.

(** Python's [a // b] on integers: floor division, raising on a zero
    divisor.  [Z.div] rounds towards minus infinity as well. *)
Definition floordiv (a b : Z) : res Z :=
  if decide (b = 0) then Raise ZeroDivisionError else Ok (a / b).

End Py.

Import Py.

Notation "'let!' x ':=' r 'in' k" := (Py.bind r (λ x, k))
  (at level 10, x name, r at level 100, k at level 200).

(** ** Configuration and Flax module descriptors *)

(** The fields of [DalleBartConfig] that modeling.py reads. *)
Record DalleBartConfig : Type := {
  d_model : Z;
  encoder_attention_heads : Z;
  decoder_attention_heads : Z;
  encoder_ffn_dim : Z;
  decoder_ffn_dim : Z;
  encoder_layers : Z;
  decoder_layers : Z;
  encoder_vocab_size : Z;
  image_vocab_size : Z;
  max_text_length : Z;
  image_length : Z;
  dropout : Q;
  attention_dropout : Q;
  activation_dropout : Q;
  encoder_layerdrop : Q;
  decoder_layerdrop : Q;
  init_std : Q;
  activation_function : string;
  scale_embedding : bool;
  tie_word_embeddings : bool;
  gradient_checkpointing : bool;
  pad_token_id : option Z;
  output_attentions : bool;
  output_hidden_states : bool;
  return_dict : bool
}.

(** [nn.Dense(features, use_bias=..., kernel_init=normal(std))] *)
Record Dense : Type := {
  features : Z;
  use_bias : bool;
  kernel_init_std : Q
}.

(** [nn.Embed(num_embeddings, features, embedding_init=normal(std))] *)
Record Embed : Type := {
  num_embeddings : Z;
  embed_features : Z;
  embedding_init_std : Q
}.

(** [nn.LayerNorm(epsilon=...)] and [nn.Dropout(rate=...)]. *)
Record LayerNorm : Type := { epsilon : Q }.
Record Dropout : Type := { rate : Q }.

(** ** Tensors

    A tensor is known by its [.shape] and its element words (the bit
    patterns of its floating-point or integer elements); arithmetic on the
    elements belongs to the tensor engine and is passed to the functions
    that need it.  Under shape-only initialisation the element list is
    empty. *)
Record tensor : Type := {
  shape : list Z;
  data : list Z
}.

#[global] Instance tensor_eq_dec : EqDecision tensor.
Proof. solve_decision. Defined.

(** ** FlaxBartAttention.setup *)

Module Attention.

(** [make_causal_mask(jnp.ones((1, n), dtype="bool"))]: entry (i, j) is
    set when key position j is not after query position i. *)
Definition make_causal_mask (n : nat) : list (list bool) :=
  map (λ i, map (λ j, bool_decide (j ≤ i)%nat) (seq 0 n)) (seq 0 n).

Record fields : Type := {
  head_dim : Z;
  q_proj : Dense;
  k_proj : Dense;
  v_proj : Dense;
  out_proj : Dense;
  dropout_layer : Dropout;
  causal_mask : option (list (list bool))
}.

(** [jnp.ones((1, n), dtype="bool")] has no value for a negative [n]: the
    array constructor raises, and no mask is built. *)
Definition causal_mask_of (n : Z) : res (list (list bool)) :=
  if decide (n < 0) then Raise (TypeError (MsgNegativeDimension n))
  else Ok (make_causal_mask (Z.to_nat n)).

Definition setup (config : DalleBartConfig) (embed_dim num_heads : Z)
    (dropout_rate : Q) (causal bias : bool) : res fields :=
  let! head_dim := floordiv embed_dim num_heads in
  if decide (head_dim * num_heads ≠ embed_dim) then
    Raise (ValueError (MsgEmbedDimNotDivisible embed_dim num_heads))
  else
    let dense := {| features := embed_dim; use_bias := bias;
                    kernel_init_std := init_std config |} in
    let! mask :=
      if causal
      then let! m := causal_mask_of (image_length config) in Ok (Some m)
      else Ok None in
    Ok {| head_dim := head_dim;
          q_proj := dense; k_proj := dense; v_proj := dense;
          out_proj := dense;
          dropout_layer := {| rate := dropout_rate |};
          causal_mask := mask |}.

(** The embedding width splits into [num_heads] heads of equal width:
    the divisor is a usable head count and the division leaves no
    remainder. *)
Definition exactly_divisible (embed_dim num_heads : Z) : Prop :=
  num_heads ≠ 0 ∧ (num_heads | embed_dim).

(** The causal mask of the module can be built: the module is not causal
    and builds none, or [image_length] is a dimension. *)
Definition mask_buildable (config : DalleBartConfig) (causal : bool) : Prop :=
  causal = false ∨ 0 ≤ image_length config.

End Attention.

(** ** The module tree built by the [setup] methods *)

Module Bart.

(** [math.sqrt(embed_dim) if config.scale_embedding else 1.0] *)
Inductive embed_scale_t : Type :=
| ScaleSqrt (embed_dim : Z)
| ScaleOne.

Record EncoderLayer : Type := {
  el_embed_dim : Z;
  el_self_attn : Attention.fields;
  el_self_attn_layer_norm : LayerNorm;
  el_dropout_layer : Dropout;
  el_activation_fn : string;
  el_activation_dropout_layer : Dropout;
  el_fc1 : Dense;
  el_fc2 : Dense;
  el_final_layer_norm : LayerNorm
}.

Record DecoderLayer : Type := {
  dl_embed_dim : Z;
  dl_self_attn : Attention.fields;
  dl_dropout_layer : Dropout;
  dl_activation_fn : string;
  dl_activation_dropout_layer : Dropout;
  dl_self_attn_layer_norm : LayerNorm;
  dl_encoder_attn : Attention.fields;
  dl_encoder_attn_layer_norm : LayerNorm;
  dl_fc1 : Dense;
  dl_fc2 : Dense;
  dl_final_layer_norm : LayerNorm
}.

(** A layer collection: the layers under their names [str(i)], the
    layer-drop rate, and whether the layer class is wrapped by
    [nn.remat]. *)
Record LayerCollection (L : Type) : Type := {
  layers : list (string * L);
  layerdrop : Q;
  remat : bool
}.
Arguments layers {L} _.
Arguments layerdrop {L} _.
Arguments remat {L} _.

Record Encoder : Type := {
  enc_dropout_layer : Dropout;
  enc_padding_idx : option Z;
  enc_embed_scale : embed_scale_t;
  enc_offset : Z;
  enc_embed_tokens : Embed;
  enc_embed_positions : Embed;
  enc_layers : LayerCollection EncoderLayer;
  enc_layernorm_embedding : LayerNorm
}.

Record Decoder : Type := {
  dec_dropout_layer : Dropout;
  dec_padding_idx : option Z;
  dec_embed_scale : embed_scale_t;
  dec_offset : Z;
  dec_embed_tokens : Embed;
  dec_embed_positions : Embed;
  dec_layers : LayerCollection DecoderLayer;
  dec_layernorm_embedding : LayerNorm
}.

Record Module : Type := {
  encoder : Encoder;
  decoder : Decoder
}.

Record ForConditionalGenerationModule : Type := {
  model : Module;
  lm_head : Dense
}.

Definition layer_norm : LayerNorm := {| epsilon := 1 # 100000 |}.

(** [ACT2FN], the table of activation functions imported from
    [transformers.modeling_flax_utils]: the names it has an entry for.
    [ACT2FN[name]] raises [KeyError] for any other name.

    A module that is assigned to an attribute in [setup] is set up when
    it is first used; the definitions below run the [setup] of every
    module of the tree, in the order of the assignments, so that the tree
    is built exactly when no [setup] of it raises. *)
Section activation_table.

Variable ACT2FN : list string.

Definition activation (name : string) : res string :=
  if decide (name ∈ ACT2FN) then Ok name else Raise (KeyError [name]).

Definition FlaxBartEncoderLayer_setup (config : DalleBartConfig)
    : res EncoderLayer :=
  let embed_dim := d_model config in
  let! self_attn :=
    Attention.setup config embed_dim (encoder_attention_heads config)
      (attention_dropout config) false false in
  let! activation_fn := activation (activation_function config) in
  Ok {| el_embed_dim := embed_dim;
        el_self_attn := self_attn;
        el_self_attn_layer_norm := layer_norm;
        el_dropout_layer := {| rate := dropout config |};
        el_activation_fn := activation_fn;
        el_activation_dropout_layer :=
          {| rate := activation_dropout config |};
        el_fc1 := {| features := encoder_ffn_dim config; use_bias := false;
                     kernel_init_std := init_std config |};
        el_fc2 := {| features := embed_dim; use_bias := false;
                     kernel_init_std := init_std config |};
        el_final_layer_norm := layer_norm |}.

Definition FlaxBartDecoderLayer_setup (config : DalleBartConfig)
    : res DecoderLayer :=
  let embed_dim := d_model config in
  let! self_attn :=
    Attention.setup config embed_dim (decoder_attention_heads config)
      (attention_dropout config) true false in
  let! activation_fn := activation (activation_function config) in
  let! encoder_attn :=
    Attention.setup config embed_dim (decoder_attention_heads config)
      (attention_dropout config) false false in
  Ok {| dl_embed_dim := embed_dim;
        dl_self_attn := self_attn;
        dl_dropout_layer := {| rate := dropout config |};
        dl_activation_fn := activation_fn;
        dl_activation_dropout_layer :=
          {| rate := activation_dropout config |};
        dl_self_attn_layer_norm := layer_norm;
        dl_encoder_attn := encoder_attn;
        dl_encoder_attn_layer_norm := layer_norm;
        dl_fc1 := {| features := encoder_ffn_dim config; use_bias := false;
                     kernel_init_std := init_std config |};
        dl_fc2 := {| features := embed_dim; use_bias := false;
                     kernel_init_std := init_std config |};
        dl_final_layer_norm := layer_norm |}.

(** [range(n)] for a Python integer [n]: empty when [n <= 0]. *)
Definition range (n : Z) : list nat := seq 0 (Z.to_nat n).

(** [[layer_module(config, name=str(i)) for i in range(n)]] *)
Fixpoint build_layers {L : Type} (layer_setup : res L) (idx : list nat)
    : res (list (string * L)) :=
  match idx with
  | [] => Ok []
  | i :: idx' =>
      let! l := layer_setup in
      let! ls := build_layers layer_setup idx' in
      Ok ((pretty i, l) :: ls)
  end.

Definition FlaxBartEncoderLayerCollection_setup (config : DalleBartConfig)
    : res (LayerCollection EncoderLayer) :=
  let! ls := build_layers (FlaxBartEncoderLayer_setup config)
               (range (encoder_layers config)) in
  Ok {| layers := ls;
        layerdrop := encoder_layerdrop config;
        remat := gradient_checkpointing config |}.

Definition FlaxBartDecoderLayerCollection_setup (config : DalleBartConfig)
    : res (LayerCollection DecoderLayer) :=
  let! ls := build_layers (FlaxBartDecoderLayer_setup config)
               (range (decoder_layers config)) in
  Ok {| layers := ls;
        layerdrop := decoder_layerdrop config;
        remat := gradient_checkpointing config |}.

(** [math.sqrt(embed_dim) if config.scale_embedding else 1.0]:
    [math.sqrt] raises [ValueError] (math domain error) on a negative
    argument. *)
Definition embed_scale_of (config : DalleBartConfig) : res embed_scale_t :=
  if scale_embedding config then
    if decide (d_model config < 0) then Raise (ValueError MsgMathDomain)
    else Ok (ScaleSqrt (d_model config))
  else Ok ScaleOne.

Definition FlaxBartEncoder_setup (config : DalleBartConfig)
    (embed_tokens : Embed) : res Encoder :=
  let embed_dim := d_model config in
  let! embed_scale := embed_scale_of config in
  let offset := 0 in
  let! ls := FlaxBartEncoderLayerCollection_setup config in
  Ok {| enc_dropout_layer := {| rate := dropout config |};
        enc_padding_idx := pad_token_id config;
        enc_embed_scale := embed_scale;
        enc_offset := offset;
        enc_embed_tokens := embed_tokens;
        enc_embed_positions :=
          {| num_embeddings := max_text_length config + offset;
             embed_features := embed_dim;
             embedding_init_std := init_std config |};
        enc_layers := ls;
        enc_layernorm_embedding := layer_norm |}.

Definition FlaxBartDecoder_setup (config : DalleBartConfig)
    (embed_tokens : Embed) : res Decoder :=
  let embed_dim := d_model config in
  let! embed_scale := embed_scale_of config in
  let offset := 0 in
  let! ls := FlaxBartDecoderLayerCollection_setup config in
  Ok {| dec_dropout_layer := {| rate := dropout config |};
        dec_padding_idx := pad_token_id config;
        dec_embed_scale := embed_scale;
        dec_offset := offset;
        dec_embed_tokens := embed_tokens;
        dec_embed_positions :=
          {| num_embeddings := image_length config + offset;
             embed_features := embed_dim;
             embedding_init_std := init_std config |};
        dec_layers := ls;
        dec_layernorm_embedding := layer_norm |}.

(** The two embedding tables of [FlaxBartModule.setup]: separate tables
    for the encoder and the decoder, held in local variables and handed
    to the encoder and the decoder as their [embed_tokens]. *)
Definition encoder_embed_tokens (config : DalleBartConfig) : Embed :=
  {| num_embeddings := encoder_vocab_size config;
     embed_features := d_model config;
     embedding_init_std := init_std config |}.

Definition decoder_embed_tokens (config : DalleBartConfig) : Embed :=
  {| num_embeddings := image_vocab_size config + 1;
     embed_features := d_model config;
     embedding_init_std := init_std config |}.

Definition FlaxBartModule_setup (config : DalleBartConfig) : res Module :=
  let! enc := FlaxBartEncoder_setup config (encoder_embed_tokens config) in
  let! dec := FlaxBartDecoder_setup config (decoder_embed_tokens config) in
  Ok {| encoder := enc; decoder := dec |}.

Definition FlaxBartForConditionalGenerationModule_setup
    (config : DalleBartConfig) : res ForConditionalGenerationModule :=
  let! m := FlaxBartModule_setup config in
  Ok {| model := m;
        lm_head := {| features := image_vocab_size config + 1;
                      use_bias := false;
                      kernel_init_std := init_std config |} |}.

End activation_table.

(** *** Shapes the layers give to their parameters and outputs

    [nn.Embed] owns one table of [num_embeddings] rows; [nn.Dense] owns a
    kernel of shape (input width, features) and maps an input of shape
    (..., input width) to an output of shape (..., features). *)
Definition embedding_shape (e : Embed) : list Z :=
  [num_embeddings e; embed_features e].

Definition kernel_shape (in_features : Z) (d : Dense) : list Z :=
  [in_features; features d].


(** *** The parameters of the module tree

    Initialisation gives every layer its parameters under the name of the
    attribute the layer is assigned to in [setup] (for the layers of a
    collection, the name [str(i)] they are given); an embedding handed to
    the encoder or the decoder is adopted there as [embed_tokens].  The
    lists below are the flattened dictionaries, with shapes for values as
    shape-only initialisation produces them. *)
Definition under (name : string) (ps : list (path * list Z))
    : list (path * list Z) :=
  map (λ kv, (name :: kv.1, kv.2)) ps.

Definition dense_params (in_features : Z) (d : Dense) : list (path * list Z) :=
  (["kernel"], kernel_shape in_features d)
  :: (if use_bias d then [(["bias"], [features d])] else []).

Definition embed_params (e : Embed) : list (path * list Z) :=
  [(["embedding"], embedding_shape e)].

Definition layer_norm_params (width : Z) : list (path * list Z) :=
  [(["scale"], [width]); (["bias"], [width])].

Definition attention_params (embed_dim : Z) (a : Attention.fields)
    : list (path * list Z) :=
  under "q_proj" (dense_params embed_dim (Attention.q_proj a))
  ++ under "k_proj" (dense_params embed_dim (Attention.k_proj a))
  ++ under "v_proj" (dense_params embed_dim (Attention.v_proj a))
  ++ under "out_proj" (dense_params embed_dim (Attention.out_proj a)).

Definition encoder_layer_params (l : EncoderLayer) : list (path * list Z) :=
  under "self_attn" (attention_params (el_embed_dim l) (el_self_attn l))
  ++ under "self_attn_layer_norm" (layer_norm_params (el_embed_dim l))
  ++ under "fc1" (dense_params (el_embed_dim l) (el_fc1 l))
  ++ under "fc2" (dense_params (features (el_fc1 l)) (el_fc2 l))
  ++ under "final_layer_norm" (layer_norm_params (el_embed_dim l)).

Definition decoder_layer_params (l : DecoderLayer) : list (path * list Z) :=
  under "self_attn" (attention_params (dl_embed_dim l) (dl_self_attn l))
  ++ under "self_attn_layer_norm" (layer_norm_params (dl_embed_dim l))
  ++ under "encoder_attn" (attention_params (dl_embed_dim l) (dl_encoder_attn l))
  ++ under "encoder_attn_layer_norm" (layer_norm_params (dl_embed_dim l))
  ++ under "fc1" (dense_params (dl_embed_dim l) (dl_fc1 l))
  ++ under "fc2" (dense_params (features (dl_fc1 l)) (dl_fc2 l))
  ++ under "final_layer_norm" (layer_norm_params (dl_embed_dim l)).

Definition collection_params {L : Type} (layer_params : L → list (path * list Z))
    (c : LayerCollection L) : list (path * list Z) :=
  flat_map (λ nl, under nl.1 (layer_params nl.2)) (layers c).

Definition encoder_params (e : Encoder) : list (path * list Z) :=
  under "embed_tokens" (embed_params (enc_embed_tokens e))
  ++ under "embed_positions" (embed_params (enc_embed_positions e))
  ++ under "layers" (collection_params encoder_layer_params (enc_layers e))
  ++ under "layernorm_embedding"
       (layer_norm_params (embed_features (enc_embed_tokens e))).

Definition decoder_params (d : Decoder) : list (path * list Z) :=
  under "embed_tokens" (embed_params (dec_embed_tokens d))
  ++ under "embed_positions" (embed_params (dec_embed_positions d))
  ++ under "layers" (collection_params decoder_layer_params (dec_layers d))
  ++ under "layernorm_embedding"
       (layer_norm_params (embed_features (dec_embed_tokens d))).

Definition module_params (m : Module) : list (path * list Z) :=
  under "encoder" (encoder_params (encoder m))
  ++ under "decoder" (decoder_params (decoder m)).

Definition generation_module_params (m : ForConditionalGenerationModule)
    : list (path * list Z) :=
  under "model" (module_params (model m))
  ++ under "lm_head"
       (dense_params (embed_features (dec_embed_tokens (decoder (model m))))
          (lm_head m)).

(** [init_weights(..., abstract_init=True)]: shapes only. *)
Definition init_weights_abstract (m : ForConditionalGenerationModule)
    : gmap path tensor :=
  list_to_map
    (map (λ kv, (kv.1, {| shape := kv.2; data := [] |}))
       (generation_module_params m)).

(** *** Reading the variables of a bound module

    [d[name]] on the nested dictionary whose flattened form is [params],
    at the node reached by [scope]: the key is present when some
    flattened key passes through it. *)
Definition has_key (params : gmap path tensor) (scope : path)
    (name : string) : bool :=
  bool_decide
    (set_Exists (λ k, (scope ++ [name]) `prefix_of` k) (dom params)).

Fixpoint getitems (params : gmap path tensor) (scope : path)
    (names : list string) : res tensor :=
  match names with
  | [] =>
      match params !! scope with
      | Some t => Ok t
      | None => Raise (OtherException "AttributeError")
      end
  | name :: names' =>
      if has_key params scope name
      then getitems params (scope ++ [name]) names'
      else Raise (KeyError [name])
  end.

(** The projection of the decoder's hidden states to logits, as both
    [FlaxBartForConditionalGenerationModule.__call__] and
    [DalleBart.decode._decoder_forward] write it.  [dense_apply kernel x]
    is [lm_head] applied with the given kernel, [transpose] is [.T]; the
    variables of [module.model] are the parameters under "model". *)
Definition lm_logits (config : DalleBartConfig)
    (dense_apply : tensor → tensor → tensor) (transpose : tensor → tensor)
    (params : gmap path tensor) (hidden_states : tensor) : res tensor :=
  if tie_word_embeddings config then
    let! shared_embedding := getitems params ["model"] ["shared"; "embedding"] in
    Ok (dense_apply (transpose shared_embedding) hidden_states)
  else
    match params !! ["lm_head"; "kernel"] with
    | Some kernel => Ok (dense_apply kernel hidden_states)
    | None => Raise (OtherException "ScopeParamNotFoundError")
    end.

(** What the claim of tied embeddings asks of the projection: the
    decoder's input-embedding table, transposed, is the kernel. *)
Definition lm_logits_tied_to_decoder_table
    (dense_apply : tensor → tensor → tensor) (transpose : tensor → tensor)
    (params : gmap path tensor) (hidden_states : tensor) : option tensor :=
  table ← params !! ["model"; "decoder"; "embed_tokens"; "embedding"];
  Some (dense_apply (transpose table) hidden_states).

(** *** A small configuration, used as a worked example *)

(** An activation table with five names. *)
Definition example_ACT2FN : list string :=
  ["gelu"; "relu"; "silu"; "swish"; "gelu_new"].
Definition example_config : DalleBartConfig :=
  {| d_model := 8;
     encoder_attention_heads := 2;
     decoder_attention_heads := 4;
     encoder_ffn_dim := 16;
     decoder_ffn_dim := 16;
     encoder_layers := 1;
     decoder_layers := 2;
     encoder_vocab_size := 50;
     image_vocab_size := 16;
     max_text_length := 4;
     image_length := 4;
     dropout := 0;
     attention_dropout := 0;
     activation_dropout := 0;
     encoder_layerdrop := 0;
     decoder_layerdrop := 0;
     init_std := 2 # 100;
     activation_function := "gelu";
     scale_embedding := false;
     tie_word_embeddings := false;
     gradient_checkpointing := false;
     pad_token_id := None;
     output_attentions := false;
     output_hidden_states := false;
     return_dict := true |}.

(** The same configuration with [tie_word_embeddings] switched on. *)
Definition example_tied_config : DalleBartConfig :=
  {| d_model := 8;
     encoder_attention_heads := 2;
     decoder_attention_heads := 4;
     encoder_ffn_dim := 16;
     decoder_ffn_dim := 16;
     encoder_layers := 1;
     decoder_layers := 2;
     encoder_vocab_size := 50;
     image_vocab_size := 16;
     max_text_length := 4;
     image_length := 4;
     dropout := 0;
     attention_dropout := 0;
     activation_dropout := 0;
     encoder_layerdrop := 0;
     decoder_layerdrop := 0;
     init_std := 2 # 100;
     activation_function := "gelu";
     scale_embedding := false;
     tie_word_embeddings := true;
     gradient_checkpointing := false;
     pad_token_id := None;
     output_attentions := false;
     output_hidden_states := false;
     return_dict := true |}.

End Bart.

(** ** FlaxBartPreTrainedModel: construction and [from_pretrained] *)

Module Checkpoint.

(** *** The checkpoint dictionary

    [state] is a Python [dict] that the loader iterates over, assigns
    into and deletes from.  It is kept as an association list in
    insertion order; every operation acts on the first binding of a key,
    which in a dictionary is the only one. *)
Abbreviation pydict := (list (path * tensor)).

Definition keys (d : pydict) : list path := d.*1.

Fixpoint dict_get (k : path) (d : pydict) : option tensor :=
  match d with
  | [] => None
  | (k', v) :: d' => if decide (k = k') then Some v else dict_get k d'
  end.

(** [d[k]] *)
Definition getitem (k : path) (d : pydict) : res tensor :=
  match dict_get k d with
  | Some v => Ok v
  | None => Raise (KeyError k)
  end.

(** [d[k] = v]: in place for a key that is present, appended otherwise. *)
Fixpoint setitem (k : path) (v : tensor) (d : pydict) : pydict :=
  match d with
  | [] => [(k, v)]
  | (k', v') :: d' =>
      if decide (k = k') then (k, v) :: d' else (k', v') :: setitem k v d'
  end.

(** [del d[k]] *)
Definition delitem (k : path) (d : pydict) : res pydict :=
  match dict_get k d with
  | Some _ => Ok (filter (λ kv, kv.1 ≠ k) d)
  | None => Raise (KeyError k)
  end.

(** [random_state[k]] on a dictionary that is only read. *)
Definition lookup_item (k : path) (m : gmap path tensor) : res tensor :=
  match m !! k with
  | Some v => Ok v
  | None => Raise (KeyError k)
  end.

(** *** The model object *)
Record model_t : Type := {
  params : gmap path tensor;
  required_params : gset path
}.

(** [__init__]: the initialised parameters, in their flattened key
    space, and their key set saved as [_required_params]. *)
Definition new_model (init_weights : gmap path tensor) : model_t :=
  {| params := init_weights; required_params := dom init_weights |}.

(** *** Reading the checkpoint file (lines 509-526) *)

(** [except (UnpicklingError, msgpack.exceptions.ExtraData)] *)
Definition is_format_error (e : exn) : bool :=
  match e with
  | UnpicklingError | ExtraData => true
  | _ => false
  end.

(** [except (UnicodeDecodeError, ValueError)] *)
Definition is_decode_or_value_error (e : exn) : bool :=
  match e with
  | UnicodeDecodeError => true
  | _ => is_ValueError e
  end.

(** [open(resolved_archive_file).read()]: the file's text, or
    [UnicodeDecodeError] when its bytes are not text. *)
Definition read_text (text : option string) : res string :=
  match text with
  | Some t => Ok t
  | None => Raise UnicodeDecodeError
  end.

(** The file carries the legacy-format marker: its text starts with the
    word "version". *)
Definition has_marker (text : option string) : bool :=
  match text with
  | Some t => String.prefix "version" t
  | None => false
  end.

(** The body of the inner [try]: read the file as text and look for the
    marker; both branches raise. *)
Definition diagnose (S : Type) (text : option string) : res S :=
  let! t := read_text text in
  if String.prefix "version" t
  then Raise (OSError MsgGitLfs)
  else Raise (ValueError MsgNone).

(** [from_bytes] is the outcome of deserialising the file's bytes and
    [text] what reading the same file in text mode gives. *)
Definition read_state {S : Type} (archive_file : string)
    (from_bytes : res S) (text : option string) : res S :=
  match from_bytes with
  | Ok state => Ok state
  | Raise e =>
      if is_format_error e then
        match diagnose S text with
        | Ok state => Ok state
        | Raise e' =>
            if is_decode_or_value_error e'
            then Raise (OSError (MsgUnableToConvert archive_file))
            else Raise e'
        end
      else Raise e
  end.

(** *** Reconciliation with the fresh parameters (lines 543-619) *)

Abbreviation mismatch := (path * list Z * list Z)%type.

Inductive log_record : Type :=
| WarnWeightsNotUsed (unexpected_keys : gset path)
| InfoAllCheckpointWeightsUsed
| WarnNewlyInitialized (missing_keys : gset path)
| InfoAllWeightsInitialized
| WarnMismatchedShapes (mismatched_keys : list mismatch).

(** The loop over [state.keys()] that compares shapes. *)
Fixpoint check_shapes (ignore_mismatched_sizes : bool)
    (random_state : gmap path tensor) (ks : list path)
    (state : pydict) (mismatched_keys : list mismatch)
    : res (pydict * list mismatch) :=
  match ks with
  | [] => Ok (state, mismatched_keys)
  | key :: ks' =>
      match random_state !! key with
      | None =>
          check_shapes ignore_mismatched_sizes random_state ks'
            state mismatched_keys
      | Some r =>
          let! s := getitem key state in
          if decide (shape s ≠ shape r) then
            if ignore_mismatched_sizes then
              check_shapes ignore_mismatched_sizes random_state ks'
                (setitem key r state)
                (mismatched_keys ++ [(key, shape s, shape r)])
            else
              Raise (ValueError (MsgShapeMismatch key (shape s) (shape r)))
          else
            check_shapes ignore_mismatched_sizes random_state ks'
              state mismatched_keys
      end
  end.

(** [for missing_key in missing_keys: state[missing_key] = random_state[missing_key]] *)
Fixpoint add_missing (random_state : gmap path tensor)
    (missing_keys : list path) (state : pydict) : res pydict :=
  match missing_keys with
  | [] => Ok state
  | missing_key :: rest =>
      let! r := lookup_item missing_key random_state in
      add_missing random_state rest (setitem missing_key r state)
  end.

(** [for unexpected_key in unexpected_keys: del state[unexpected_key]] *)
Fixpoint remove_unexpected (unexpected_keys : list path) (state : pydict)
    : res pydict :=
  match unexpected_keys with
  | [] => Ok state
  | unexpected_key :: rest =>
      let! state' := delitem unexpected_key state in
      remove_unexpected rest state'
  end.

Definition report (missing_keys unexpected_keys : gset path)
    (mismatched_keys : list mismatch) : list log_record :=
  [ if decide (0 < size unexpected_keys)%nat
    then WarnWeightsNotUsed unexpected_keys
    else InfoAllCheckpointWeightsUsed ]
  ++ (if decide (0 < size missing_keys)%nat
      then [WarnNewlyInitialized missing_keys]
      else if decide (length mismatched_keys = 0%nat)
           then [InfoAllWeightsInitialized]
           else [])
  ++ (if decide (0 < length mismatched_keys)%nat
      then [WarnMismatchedShapes mismatched_keys]
      else []).

(** [state] is the flattened checkpoint; the result is the model with its
    parameters replaced, together with what was logged. *)
Definition from_pretrained (ignore_mismatched_sizes : bool)
    (init_weights : gmap path tensor) (state : pydict)
    : res (model_t * list log_record) :=
  let model := new_model init_weights in
  let random_state := params model in
  let missing_keys :=
    required_params model ∖ list_to_set (keys state) in
  let unexpected_keys :=
    list_to_set (keys state) ∖ required_params model in
  let! checked :=
    check_shapes ignore_mismatched_sizes random_state (keys state)
      state [] in
  let '(state, mismatched_keys) := checked in
  let! state := add_missing random_state (elements missing_keys) state in
  let! state := remove_unexpected (elements unexpected_keys) state in
  Ok ({| params := list_to_map state;
         required_params := required_params model |},
      report missing_keys unexpected_keys mismatched_keys).

(** The condition of the shape test, stated on the inputs. *)
Definition shapes_differ (init_weights : gmap path tensor)
    (state : pydict) (k : path) : Prop :=
  ∃ s r, dict_get k state = Some s ∧ init_weights !! k = Some r
         ∧ shape s ≠ shape r.

(** What a key holds once the shape loop has run over [ks] in
    permissive mode. *)
Definition after_check (random_state : gmap path tensor) (ks : list path)
    (state : pydict) (k : path) : option tensor :=
  match dict_get k state, random_state !! k with
  | Some s, Some r =>
      if decide (k ∈ ks ∧ shape s ≠ shape r) then Some r else Some s
  | o, _ => o
  end.

(** The value the reconciled dictionary holds at a key. *)
Definition reconciled (init_weights : gmap path tensor) (state : pydict)
    (k : path) : option tensor :=
  match init_weights !! k with
  | None => None
  | Some r =>
      match dict_get k state with
      | None => Some r
      | Some s => if decide (shape s ≠ shape r) then Some r else Some s
      end
  end.

(** *** A small model and two checkpoints, used as worked examples *)

Definition example_weights : gmap path tensor :=
  list_to_map
    [ (["lm_head"; "kernel"], {| shape := [2; 3]; data := [1; 2; 3; 4; 5; 6] |});
      (["model"; "decoder"; "embed_tokens"; "embedding"],
       {| shape := [3; 2]; data := [7; 8; 9; 10; 11; 12] |}) ].

(** The checkpoint lacks the decoder table, carries a kernel of another
    shape and one entry the model does not have. *)
Definition example_state : pydict :=
  [ (["lm_head"; "kernel"], {| shape := [2; 4]; data := [0; 0; 0; 0; 0; 0; 0; 0] |});
    (["model"; "shared"; "embedding"], {| shape := [3; 2]; data := [1; 1; 1; 1; 1; 1] |}) ].

(** A model with two parameters, and a checkpoint that has both of them
    with other shapes. *)
Definition two_weights : gmap path tensor :=
  list_to_map
    [ (["a"], {| shape := [2]; data := [1; 2] |});
      (["b"], {| shape := [3]; data := [3; 4; 5] |}) ].

Definition two_mismatches_state : pydict :=
  [ (["a"], {| shape := [9]; data := [0; 0; 0; 0; 0; 0; 0; 0; 0] |});
    (["b"], {| shape := [7]; data := [0; 0; 0; 0; 0; 0; 0] |}) ].

End Checkpoint.

(** ** DalleBart: [decode] and [prepare_inputs_for_generation] *)

Module Decode.

(** A two-dimensional integer array (token ids, masks, position ids):
    [batch_size, sequence_length = a.shape] reads [nrows] and [ncols]. *)
Record array2 : Type := {
  nrows : nat;
  ncols : nat;
  rows : list (list Z)
}.

Definition well_formed (a : array2) : Prop :=
  length (rows a) = nrows a ∧ Forall (λ row, length row = ncols a) (rows a).

(** [jnp.ones((b, n))]; a negative dimension is refused. *)
Definition ones (b n : Z) : res array2 :=
  if decide (b < 0) then Raise (TypeError (MsgNegativeDimension b))
  else if decide (n < 0) then Raise (TypeError (MsgNegativeDimension n))
  else Ok {| nrows := Z.to_nat b; ncols := Z.to_nat n;
             rows := replicate (Z.to_nat b) (replicate (Z.to_nat n) 1) |}.

(** The array [jnp.ones((b, n))] of natural dimensions. *)
Definition all_ones (b n : nat) : array2 :=
  {| nrows := b; ncols := n; rows := replicate b (replicate n 1) |}.

(** [jnp.arange(n)] *)
Definition arange (n : nat) : list Z := map Z.of_nat (seq 0 n).

(** [jnp.broadcast_to(jnp.arange(n)[None, :], (b, n))] *)
Definition broadcast_arange (b n : nat) : array2 :=
  {| nrows := b; ncols := n; rows := replicate b (arange n) |}.

(** Arithmetic of 32-bit signed integers ("i4"). *)
Definition wrap32 (z : Z) : Z := (z + 2 ^ 31) mod 2 ^ 32 - 2 ^ 31.

Fixpoint cumsum_from (acc : Z) (row : list Z) : list Z :=
  match row with
  | [] => []
  | x :: row' => let acc' := wrap32 (acc + x) in acc' :: cumsum_from acc' row'
  end.

(** [a.cumsum(axis=-1) - 1] *)
Definition cumsum_minus_one (a : array2) : array2 :=
  {| nrows := nrows a; ncols := ncols a;
     rows := map (λ row, map (λ c, wrap32 (c - 1)) (cumsum_from 0 row))
               (rows a) |}.

Fixpoint update_rows (operand update : list (list Z)) : list (list Z) :=
  match operand, update with
  | o :: operand', u :: update' =>
      (u ++ drop (length u) o) :: update_rows operand' update'
  | _, _ => operand
  end.

(** [lax.dynamic_update_slice(operand, update, (0, 0))]: the update must
    fit into the operand. *)
Definition dynamic_update_slice (operand update : array2) : res array2 :=
  if decide (nrows update ≤ nrows operand ∧ ncols update ≤ ncols operand)%nat
  then Ok {| nrows := nrows operand; ncols := ncols operand;
             rows := update_rows (rows operand) (rows update) |}
  else Raise (TypeError
                (MsgUpdateTooLarge
                   [Z.of_nat (nrows update); Z.of_nat (ncols update)]
                   [Z.of_nat (nrows operand); Z.of_nat (ncols operand)])).

(** *** The cache *)
Record layer_cache : Type := {
  cached_key : tensor;
  cached_value : tensor;
  cache_index : Z
}.

Abbreviation cache := (list (string * layer_cache)).

Definition zeros (sh : list Z) : tensor :=
  {| shape := sh; data := replicate (Z.to_nat (foldr Z.mul 1 sh)) 0 |}.

Record encoder_outputs_t : Type := {
  encoder_last_hidden_state : tensor;
  encoder_hidden_states : option (list tensor);
  encoder_attentions : option (list tensor)
}.

(** Modelled from the spec: [init_cache] is inherited from the base
    generation class and is not part of modeling.py.  It allocates, for
    every decoder layer, a key buffer and a value buffer with room for
    [max_length] positions and a cursor at zero. *)
Definition init_cache (config : DalleBartConfig) (batch_size : nat)
    (max_length : Z) (encoder_outputs : option encoder_outputs_t) : cache :=
  let heads := decoder_attention_heads config in
  let buffer :=
    zeros [Z.of_nat batch_size; max_length; heads; d_model config / heads] in
  map (λ i, (pretty i, {| cached_key := buffer; cached_value := buffer;
                          cache_index := 0 |}))
      (Bart.range (decoder_layers config)).

(** The number of positions a layer's buffers have room for. *)
Definition positions (c : layer_cache) : option Z := shape (cached_key c) !! 1%nat.

(** *** The model object and the decoder it applies *)
Record DalleBart : Type := {
  config : DalleBartConfig;
  self_params : gmap path tensor
}.

Record decoder_outputs_t : Type := {
  last_hidden_state : tensor;
  hidden_states : option (list tensor);
  attentions : option (list tensor);
  cross_attentions : option (list tensor)
}.

(** What [self.module.apply] is called with. *)
Record apply_inputs : Type := {
  in_params : gmap path tensor;
  in_cache : option cache;
  in_decoder_input_ids : array2;
  in_decoder_attention_mask : array2;
  in_decoder_position_ids : array2;
  in_encoder_hidden_states : tensor;
  in_encoder_attention_mask : array2;
  in_output_attentions : bool;
  in_output_hidden_states : bool;
  in_return_dict : bool;
  in_deterministic : bool;
  in_rngs : option tensor
}.

Inductive decode_output : Type :=
| CausalLMOutput (logits : tensor)
    (hidden_states attentions cross_attentions : option (list tensor))
    (past_key_values : option cache)
| TupleOutput (logits : tensor) (past_key_values : option cache)
    (rest : list (list tensor)).

(** [decoder_outputs[1:]] *)
Definition tail_outputs (o : decoder_outputs_t) : list (list tensor) :=
  omap id [hidden_states o; attentions o; cross_attentions o].

(** [batch_size, sequence_length = t.shape[:2]] *)
Definition leading_two (t : tensor) : res (Z * Z) :=
  match shape t with
  | b :: n :: _ => Ok (b, n)
  | _ => Raise (ValueError (MsgOther "not enough values to unpack"))
  end.

(** [x if x is not None else d] *)
Definition or_default {A : Type} (x : option A) (d : A) : A :=
  match x with
  | Some a => a
  | None => d
  end.

(** [params or self.params]: an absent or empty dictionary gives way to
    the model's own parameters. *)
Definition params_or_self (params : option (gmap path tensor))
    (self : DalleBart) : gmap path tensor :=
  match params with
  | Some p => if decide (p = ∅) then self_params self else p
  | None => self_params self
  end.

(** [if past_key_values:] a dictionary is true when it is not empty. *)
Definition truthy (past_key_values : option cache) : bool :=
  match past_key_values with
  | Some (_ :: _) => true
  | _ => false
  end.

(** [self.config.output_attentions] and its two companions. *)
Definition config_output_attentions (self : DalleBart) : bool :=
  output_attentions (config self).
Definition config_output_hidden_states (self : DalleBart) : bool :=
  output_hidden_states (config self).
Definition config_return_dict (self : DalleBart) : bool :=
  return_dict (config self).

(** Lines 721-768 of [decode]: the defaults, the check of the cache
    contract, and the arguments handed to [self.module.apply].  The
    conversions [jnp.array(x, dtype="i4")] leave an integer array as it
    is. *)
Definition decode_inputs (self : DalleBart)
    (decoder_input_ids : array2) (encoder_outputs : encoder_outputs_t)
    (encoder_attention_mask decoder_attention_mask
       decoder_position_ids : option array2)
    (past_key_values : option cache)
    (output_attentions output_hidden_states return_dict : option bool)
    (train : bool) (params : option (gmap path tensor))
    (dropout_rng : option tensor) : res apply_inputs :=
  let output_attentions :=
    or_default output_attentions (config_output_attentions self) in
  let output_hidden_states :=
    or_default output_hidden_states (config_output_hidden_states self) in
  let return_dict :=
    or_default return_dict (config_return_dict self) in
  let encoder_hidden_states := encoder_last_hidden_state encoder_outputs in
  let! encoder_attention_mask :=
    match encoder_attention_mask with
    | Some mask => Ok mask
    | None =>
        let! dims := leading_two encoder_hidden_states in
        ones dims.1 dims.2
    end in
  let batch_size := nrows decoder_input_ids in
  let sequence_length := ncols decoder_input_ids in
  let! decoder_attention_mask :=
    match decoder_attention_mask with
    | Some mask => Ok mask
    | None => ones (Z.of_nat batch_size) (Z.of_nat sequence_length)
    end in
  let! decoder_position_ids :=
    match decoder_position_ids with
    | Some ids => Ok ids
    | None =>
        match past_key_values with
        | Some _ => Raise (ValueError MsgProvidePositionIds)
        | None => Ok (broadcast_arange batch_size sequence_length)
        end
    end in
  Ok {| in_params := params_or_self params self;
        in_cache := if truthy past_key_values then past_key_values else None;
        in_decoder_input_ids := decoder_input_ids;
        in_decoder_attention_mask := decoder_attention_mask;
        in_decoder_position_ids := decoder_position_ids;
        in_encoder_hidden_states := encoder_hidden_states;
        in_encoder_attention_mask := encoder_attention_mask;
        in_output_attentions := output_attentions;
        in_output_hidden_states := output_hidden_states;
        in_return_dict := return_dict;
        in_deterministic := negb train;
        in_rngs := dropout_rng |}.

(** [_decoder_forward]: the decoder stack, then the projection to
    logits.  [decoder_module] is the decoder stack of the bound module; it
    returns its outputs and the cache collection as it leaves it. *)
Definition decoder_forward (self : DalleBart)
    (decoder_module : apply_inputs → decoder_outputs_t * cache)
    (dense_apply : tensor → tensor → tensor) (transpose : tensor → tensor)
    (inputs : apply_inputs) : res (tensor * decoder_outputs_t * cache) :=
  let '(outputs, past) := decoder_module inputs in
  let hidden_states := last_hidden_state outputs in
  let! lm_logits :=
    Bart.lm_logits (config self) dense_apply transpose (in_params inputs)
      hidden_states in
  Ok (lm_logits, outputs, past).

(** Lines 814-836: what [decode] returns. *)
Definition decode_result (past_key_values : option cache)
    (return_dict : bool) (forward : tensor * decoder_outputs_t * cache)
    : res decode_output :=
  let '(lm_logits, decoder_outputs, past) := forward in
  match past_key_values with
  | None =>
      if return_dict
      then Ok (CausalLMOutput lm_logits (hidden_states decoder_outputs)
                 (attentions decoder_outputs)
                 (cross_attentions decoder_outputs) None)
      else Ok (TupleOutput lm_logits None (tail_outputs decoder_outputs))
  | Some _ =>
      if truthy past_key_values then
        if return_dict
        then Ok (CausalLMOutput lm_logits (hidden_states decoder_outputs)
                   (attentions decoder_outputs)
                   (cross_attentions decoder_outputs) (Some past))
        else Ok (TupleOutput lm_logits (Some past)
                   (tail_outputs decoder_outputs))
      else
        (* an empty cache is not None yet false: apply ran without a
           mutable collection and its result is not a pair to unpack *)
        Raise (OtherException "unpack")
  end.

Definition decode (self : DalleBart)
    (decoder_module : apply_inputs → decoder_outputs_t * cache)
    (dense_apply : tensor → tensor → tensor) (transpose : tensor → tensor)
    (decoder_input_ids : array2) (encoder_outputs : encoder_outputs_t)
    (encoder_attention_mask decoder_attention_mask
       decoder_position_ids : option array2)
    (past_key_values : option cache)
    (output_attentions output_hidden_states return_dict : option bool)
    (train : bool) (params : option (gmap path tensor))
    (dropout_rng : option tensor) : res decode_output :=
  let! inputs :=
    decode_inputs self decoder_input_ids encoder_outputs
      encoder_attention_mask decoder_attention_mask decoder_position_ids
      past_key_values output_attentions output_hidden_states return_dict
      train params dropout_rng in
  let! forward :=
    decoder_forward self decoder_module dense_apply transpose inputs in
  decode_result past_key_values (in_return_dict inputs) forward.

(** *** [prepare_inputs_for_generation] *)
Record generation_inputs : Type := {
  g_past_key_values : cache;
  g_encoder_outputs : option encoder_outputs_t;
  g_encoder_attention_mask : option array2;
  g_decoder_attention_mask : array2;
  g_decoder_position_ids : array2
}.

Definition prepare_inputs_for_generation (self : DalleBart)
    (decoder_input_ids : array2) (max_length : Z)
    (attention_mask decoder_attention_mask : option array2)
    (encoder_outputs : option encoder_outputs_t) : res generation_inputs :=
  let batch_size := nrows decoder_input_ids in
  let seq_length := ncols decoder_input_ids in
  let past_key_values :=
    init_cache (config self) batch_size (max_length - 1) encoder_outputs in
  let! extended_attention_mask :=
    ones (Z.of_nat batch_size) (max_length - 1) in
  let! masks :=
    match decoder_attention_mask with
    | Some mask =>
        let position_ids := cumsum_minus_one mask in
        let! extended_attention_mask :=
          dynamic_update_slice extended_attention_mask mask in
        Ok (extended_attention_mask, position_ids)
    | None =>
        Ok (extended_attention_mask, broadcast_arange batch_size seq_length)
    end in
  Ok {| g_past_key_values := past_key_values;
        g_encoder_outputs := encoder_outputs;
        g_encoder_attention_mask := attention_mask;
        g_decoder_attention_mask := masks.1;
        g_decoder_position_ids := masks.2 |}.

(** *** Worked examples *)
Definition example_model : DalleBart :=
  {| config := Bart.example_config; self_params := ∅ |}.

Definition example_input_ids : array2 :=
  {| nrows := 2; ncols := 3; rows := [[16; 3; 5]; [16; 7; 1]] |}.

Definition example_encoder_outputs : encoder_outputs_t :=
  {| encoder_last_hidden_state := {| shape := [2; 4; 8]; data := [] |};
     encoder_hidden_states := None;
     encoder_attentions := None |}.

Definition example_mask : array2 :=
  {| nrows := 2; ncols := 3; rows := [[1; 1; 0]; [0; 1; 1]] |}.

End Decode.

(** ** FlaxBartPreTrainedModel: further members *)

Module Pretrained.
Import Checkpoint.

(** [param.size]: the number of elements a tensor of this shape holds. *)
Definition tensor_size (t : tensor) : Z := foldr Z.mul 1 (shape t).

(** The [num_params] property: the sizes of all parameters of the
    flattened tree, summed. *)
Definition num_params (model : model_t) : Z :=
  foldr Z.add 0 ((λ kv, tensor_size kv.2) <$> map_to_list (params model)).

(** The triple the shape loop appends for a key, if it appends one. *)
Definition mismatch_of (random_state : gmap path tensor) (state : pydict)
    (key : path) : option mismatch :=
  match dict_get key state, random_state !! key with
  | Some s, Some r =>
      if decide (shape s ≠ shape r)
      then Some (key, shape s, shape r)
      else None
  | _, _ => None
  end.

(** The log of a load that found nothing to report. *)
Definition quiet_log : list log_record :=
  [InfoAllCheckpointWeightsUsed; InfoAllWeightsInitialized].

(** A checkpoint with exactly the keys and shapes of [example_weights]. *)
Definition example_complete_state : pydict :=
  [ (["model"; "decoder"; "embed_tokens"; "embedding"],
     {| shape := [3; 2]; data := [21; 22; 23; 24; 25; 26] |});
    (["lm_head"; "kernel"],
     {| shape := [2; 3]; data := [31; 32; 33; 34; 35; 36] |}) ].

(** The checkpoint without the entries the model has no parameter for. *)
Definition without_unexpected (init_weights : gmap path tensor)
    (state : pydict) : pydict :=
  filter (λ kv, kv.1 ∈ dom init_weights) state.

End Pretrained.

(** ** Reading masks and position ids *)

Module Generation.

(** A mask row holds zeros (masked) and ones only. *)
Definition binary_row (row : list Z) : Prop :=
  Forall (λ x, x = 0 ∨ x = 1) row.

(** The number of unmasked positions among the first [j + 1] of a row. *)
Definition unmasked_upto (j : nat) (row : list Z) : Z :=
  foldr Z.add 0 (take (S j) row).

(** The supplied decoder mask fits into the extended mask. *)
Definition mask_fits (decoder_input_ids : Decode.array2) (max_length : Z)
    (decoder_attention_mask : option Decode.array2) : Prop :=
  ∀ mask, decoder_attention_mask = Some mask →
    (Decode.nrows mask ≤ Decode.nrows decoder_input_ids)%nat
    ∧ Z.of_nat (Decode.ncols mask) ≤ max_length - 1.

End Generation.

(** A model that holds the parameters of [Checkpoint.example_weights]. *)
Definition example_loaded_model : Decode.DalleBart :=
  {| Decode.config := Bart.example_config;
     Decode.self_params := Checkpoint.example_weights |}.

(** A decoder stack for worked examples: it returns a fixed hidden state
    and advances the cursor of every layer of the cache by one. *)
Definition example_decoder_module (inputs : Decode.apply_inputs)
    : Decode.decoder_outputs_t * Decode.cache :=
  ({| Decode.last_hidden_state := {| shape := [2; 1; 8]; data := [] |};
      Decode.hidden_states := None;
      Decode.attentions := None;
      Decode.cross_attentions := None |},
   (λ nl, (nl.1, {| Decode.cached_key := Decode.cached_key nl.2;
                    Decode.cached_value := Decode.cached_value nl.2;
                    Decode.cache_index := Decode.cache_index nl.2 + 1 |}))
     <$> Decode.or_default (Decode.in_cache inputs) []).

(** ** Configurations that differ in one field *)

(** The configuration with another [image_length]. *)
Definition with_image_length (config : DalleBartConfig) (length : Z)
    : DalleBartConfig :=
  {| d_model := d_model config;
     encoder_attention_heads := encoder_attention_heads config;
     decoder_attention_heads := decoder_attention_heads config;
     encoder_ffn_dim := encoder_ffn_dim config;
     decoder_ffn_dim := decoder_ffn_dim config;
     encoder_layers := encoder_layers config;
     decoder_layers := decoder_layers config;
     encoder_vocab_size := encoder_vocab_size config;
     image_vocab_size := image_vocab_size config;
     max_text_length := max_text_length config;
     image_length := length;
     dropout := dropout config;
     attention_dropout := attention_dropout config;
     activation_dropout := activation_dropout config;
     encoder_layerdrop := encoder_layerdrop config;
     decoder_layerdrop := decoder_layerdrop config;
     init_std := init_std config;
     activation_function := activation_function config;
     scale_embedding := scale_embedding config;
     tie_word_embeddings := tie_word_embeddings config;
     gradient_checkpointing := gradient_checkpointing config;
     pad_token_id := pad_token_id config;
     output_attentions := output_attentions config;
     output_hidden_states := output_hidden_states config;
     return_dict := return_dict config |}.
(** The configuration with another [decoder_ffn_dim]. *)
Definition with_decoder_ffn_dim (config : DalleBartConfig) (width : Z)
    : DalleBartConfig :=
  {| d_model := d_model config;
     encoder_attention_heads := encoder_attention_heads config;
     decoder_attention_heads := decoder_attention_heads config;
     encoder_ffn_dim := encoder_ffn_dim config;
     decoder_ffn_dim := width;
     encoder_layers := encoder_layers config;
     decoder_layers := decoder_layers config;
     encoder_vocab_size := encoder_vocab_size config;
     image_vocab_size := image_vocab_size config;
     max_text_length := max_text_length config;
     image_length := image_length config;
     dropout := dropout config;
     attention_dropout := attention_dropout config;
     activation_dropout := activation_dropout config;
     encoder_layerdrop := encoder_layerdrop config;
     decoder_layerdrop := decoder_layerdrop config;
     init_std := init_std config;
     activation_function := activation_function config;
     scale_embedding := scale_embedding config;
     tie_word_embeddings := tie_word_embeddings config;
     gradient_checkpointing := gradient_checkpointing config;
     pad_token_id := pad_token_id config;
     output_attentions := output_attentions config;
     output_hidden_states := output_hidden_states config;
     return_dict := return_dict config |}.

(** ** Theorems *)

(** *** Fallible results *)

Section results.
Lemma succeeds_Ok {A : Type} (a : A) : succeeds (Ok a).
Proof. by exists a. Qed.

Lemma fails_Raise {A : Type} (e : exn) : fails (@Raise A e).
Proof. by exists e. Qed.

Lemma succeeds_not_fails {A : Type} (r : res A) : succeeds r → ¬ fails r.
Proof. intros [a ->] [e He]. discriminate. Qed.

Lemma succeeds_or_fails {A : Type} (r : res A) : succeeds r ∨ fails r.
Proof. destruct r; [left; apply succeeds_Ok | right; apply fails_Raise]. Qed.

Lemma bind_Ok {A B : Type} (r : res A) (k : A → res B) (b : B) :
  bind r k = Ok b ↔ ∃ a, r = Ok a ∧ k a = Ok b.
Proof.
  destruct r as [a|e]; cbn; split.
  - intros Hk. by exists a.
  - by intros (a' & [= ->] & Hk).
  - discriminate.
  - by intros (a' & [=] & _).
Qed.

End results.

Ltac bind_inv H :=
  repeat match type of H with
         | bind _ _ = Ok _ =>
             let a := fresh "a" in
             let Ha := fresh "Hstep" in
             apply bind_Ok in H as (a & Ha & H)
         end.

Section attention_setup.
Variable config : DalleBartConfig.
Variables (dropout_rate : Q) (causal bias : bool).

Lemma setup_divisible_ok (embed_dim num_heads : Z) :
  Attention.exactly_divisible embed_dim num_heads →
  Attention.mask_buildable config causal →
  ∃ f, Attention.setup config embed_dim num_heads dropout_rate causal bias
         = Ok f
       ∧ Attention.head_dim f * num_heads = embed_dim.
Proof.
  intros [Hnz [q Hq]] Hmask. unfold Attention.setup, floordiv.
  rewrite decide_False by done. cbn.
  assert (embed_dim / num_heads = q) as Hdiv
    by (subst embed_dim; by apply Z.div_mul).
  rewrite decide_False; [|intros Hne; apply Hne; rewrite Hdiv; lia].
  destruct causal.
  - destruct Hmask as [|Hlen]; [done|].
    unfold Attention.causal_mask_of. rewrite decide_False by lia. cbn.
    eexists; split; [reflexivity|]. cbn. rewrite Hdiv. lia.
  - cbn. eexists; split; [reflexivity|]. cbn. rewrite Hdiv. lia.
Qed.

Lemma setup_ok_divisible (embed_dim num_heads : Z) f :
  Attention.setup config embed_dim num_heads dropout_rate causal bias = Ok f →
  Attention.exactly_divisible embed_dim num_heads.
Proof.
  unfold Attention.setup, floordiv.
  destruct (decide (num_heads = 0)) as [|Hnz]; [discriminate|]. cbn.
  destruct (decide (embed_dim / num_heads * num_heads ≠ embed_dim))
    as [|Heq]; [discriminate|].
  intros _. split; [done|].
  exists (embed_dim / num_heads).
  destruct (decide (embed_dim / num_heads * num_heads = embed_dim)); [lia|].
  by exfalso; apply Heq.
Qed.

Lemma setup_ok_mask (embed_dim num_heads : Z) f :
  Attention.setup config embed_dim num_heads dropout_rate causal bias = Ok f →
  Attention.mask_buildable config causal.
Proof.
  unfold Attention.setup, floordiv, Attention.mask_buildable.
  destruct (decide (num_heads = 0)) as [|Hnz]; [discriminate|]. cbn.
  destruct (decide (embed_dim / num_heads * num_heads ≠ embed_dim))
    as [|Heq]; [discriminate|].
  destruct causal; [|by left].
  unfold Attention.causal_mask_of.
  destruct (decide (image_length config < 0)); [discriminate|].
  intros _. right. lia.
Qed.

Lemma setup_not_divisible_fails (embed_dim num_heads : Z) :
  ¬ Attention.exactly_divisible embed_dim num_heads →
  fails (Attention.setup config embed_dim num_heads
           dropout_rate causal bias).
Proof.
  intros Hnd.
  destruct (Attention.setup config embed_dim num_heads
              dropout_rate causal bias) as [f|e] eqn:Hsetup;
    [|apply fails_Raise].
  exfalso. apply Hnd. by eapply setup_ok_divisible.
Qed.

(** C7 (as amended). When the embedding width is not exactly divisible by the number
    of heads, [setup] raises: construction fails at setup time.  When
    the causal mask of the module can be built (the module is not causal,
    or [image_length] is not negative), construction succeeds exactly
    when the width is divisible.  For every configuration, construction
    succeeds exactly when the width is divisible and the mask can be
    built. *)
Theorem attention_setup_iff_divisible (embed_dim num_heads : Z) :
  (¬ Attention.exactly_divisible embed_dim num_heads →
   fails (Attention.setup config embed_dim num_heads
            dropout_rate causal bias))
  ∧ (Attention.mask_buildable config causal →
     (succeeds (Attention.setup config embed_dim num_heads
                  dropout_rate causal bias)
        ↔ Attention.exactly_divisible embed_dim num_heads)
     ∧ (¬ Attention.exactly_divisible embed_dim num_heads ↔
        fails (Attention.setup config embed_dim num_heads
                 dropout_rate causal bias)))
  ∧ (succeeds (Attention.setup config embed_dim num_heads
                 dropout_rate causal bias)
       ↔ Attention.exactly_divisible embed_dim num_heads
         ∧ Attention.mask_buildable config causal).
Proof.
  split_and!.
  - apply setup_not_divisible_fails.
  - intros Hmask.
    assert (succeeds (Attention.setup config embed_dim num_heads
                        dropout_rate causal bias)
              ↔ Attention.exactly_divisible embed_dim num_heads) as Hiff.
    { split.
      - intros [f Hf]. by eapply setup_ok_divisible.
      - intros Hd. destruct (setup_divisible_ok _ _ Hd Hmask) as (f & Hf & _).
        by exists f. }
    split; [exact Hiff|]. split.
    + apply setup_not_divisible_fails.
    + intros Hf Hd. apply Hiff in Hd. by eapply succeeds_not_fails.
  - split.
    + intros [f Hf]. split;
        [by eapply setup_ok_divisible | by eapply setup_ok_mask].
    + intros [Hd Hmask].
      destruct (setup_divisible_ok _ _ Hd Hmask) as (f & Hf & _).
      by exists f.
Qed.

End attention_setup.

Lemma attention_setup_iff_divisible_witness :
  (succeeds (Attention.setup Bart.example_config 8 4 0 true false)
     ↔ Attention.exactly_divisible 8 4)
  ∧ (¬ Attention.exactly_divisible 8 3 →
     fails (Attention.setup Bart.example_config 8 3 0 true false)).
Proof.
  split.
  - apply (proj1 (proj2 (attention_setup_iff_divisible Bart.example_config
                           0 true false 8 4))).
    right. cbn. lia.
  - apply (proj1 (attention_setup_iff_divisible Bart.example_config
                    0 true false 8 3)).
Defined.

(** A causal attention module of a configuration whose [image_length] is
    negative: the width 8 divides evenly over 4 heads, and [setup] raises
    all the same, when it builds the causal mask. *)
Lemma attention_setup_negative_image_length :
  Attention.exactly_divisible 8 4
  ∧ Attention.setup (with_image_length Bart.example_config (-4)) 8 4 0
      true false
    = Raise (TypeError (MsgNegativeDimension (-4)))
  ∧ ¬ succeeds (Attention.setup (with_image_length Bart.example_config (-4))
                  8 4 0 true false).
Proof.
  split_and!.
  - split; [done|]. exists 2. reflexivity.
  - reflexivity.
  - intros [f Hf]. discriminate.
Qed.

(** *** The checkpoint dictionary *)

Section pydict_facts.
Import Checkpoint.
Implicit Types (d state : pydict) (k key : path) (v : tensor).

Lemma dict_get_keys k d : k ∈ keys d ↔ is_Some (dict_get k d).
Proof.
  unfold keys. induction d as [|[k' v'] d IH]; cbn.
  - split; [by intros ?%elem_of_nil | by intros [? ?]].
  - rewrite elem_of_cons. destruct (decide (k = k')) as [->|Hne].
    + split; [eauto | by left].
    + rewrite <- IH. split; [by intros [?|?] | by right].
Qed.

Lemma dict_get_setitem k' k v d :
  dict_get k' (setitem k v d) = if decide (k' = k) then Some v else dict_get k' d.
Proof.
  induction d as [|[k0 v0] d IH]; cbn.
  - by destruct (decide (k' = k)).
  - destruct (decide (k = k0)) as [->|Hne]; cbn.
    + by destruct (decide (k' = k0)).
    + rewrite IH. destruct (decide (k' = k0)) as [->|]; [|done].
      by rewrite decide_False.
Qed.

Lemma dict_get_filter_ne k' k d :
  dict_get k' (filter (λ kv, kv.1 ≠ k) d)
  = if decide (k' = k) then None else dict_get k' d.
Proof.
  induction d as [|[k0 v0] d IH].
  - cbn. by destruct (decide (k' = k)).
  - rewrite filter_cons. cbn. destruct (decide (k0 ≠ k)) as [Hne|Heq]; cbn.
    + rewrite IH. destruct (decide (k' = k0)) as [->|]; [|done].
      by rewrite decide_False.
    + apply dec_stable in Heq. subst k0. rewrite IH.
      destruct (decide (k' = k)); done.
Qed.

Lemma dict_get_list_to_map k d :
  (list_to_map d : gmap path tensor) !! k = dict_get k d.
Proof.
  induction d as [|[k0 v0] d IH]; cbn; [done|].
  destruct (decide (k = k0)) as [->|Hne].
  - by rewrite lookup_insert_eq.
  - by rewrite lookup_insert_ne.
Qed.

Lemma getitem_Some k d v : dict_get k d = Some v → getitem k d = Ok v.
Proof. unfold getitem. by intros ->. Qed.

Lemma delitem_Some k d :
  is_Some (dict_get k d) → delitem k d = Ok (filter (λ kv, kv.1 ≠ k) d).
Proof. unfold delitem. by intros [v ->]. Qed.

End pydict_facts.

(** *** The three loops of the reconciliation *)

Section reconciliation_loops.
Import Checkpoint.
Variable random_state : gmap path tensor.
Implicit Types (state : pydict) (k key : path) (ks : list path)
  (mm : list mismatch).

Lemma after_check_is_Some ks state k :
  is_Some (after_check random_state ks state k) ↔ is_Some (dict_get k state).
Proof.
  unfold after_check.
  destruct (dict_get k state) as [s|]; [|done].
  destruct (random_state !! k) as [r|]; [|done].
  case_decide; split; eauto.
Qed.

Lemma check_shapes_permissive ks : ∀ state mm,
  (∀ k, k ∈ ks → is_Some (dict_get k state)) →
  ∃ state' mm',
    check_shapes true random_state ks state mm = Ok (state', mm')
    ∧ (∀ k, dict_get k state' = after_check random_state ks state k)
    ∧ (∀ k s r, k ∈ ks → dict_get k state = Some s →
                random_state !! k = Some r → shape s ≠ shape r →
                (k, shape s, shape r) ∈ mm')
    ∧ (∀ t, t ∈ mm → t ∈ mm').
Proof.
  induction ks as [|key ks IH]; intros state mm Hin.
  - exists state, mm. cbn. split_and!; [done| |by intros ????%elem_of_nil|done].
    intros k. unfold after_check.
    destruct (dict_get k state) as [s|]; [|done].
    destruct (random_state !! k) as [r|]; [|done].
    rewrite decide_False; [done|]. by intros [?%elem_of_nil _].
  - cbn [check_shapes].
    destruct (random_state !! key) as [r|] eqn:Hr.
    + destruct (Hin key) as [s Hs]; [by left|].
      rewrite (getitem_Some _ _ _ Hs). cbn [bind].
      destruct (decide (shape s ≠ shape r)) as [Hne|Heq].
      * destruct (IH (setitem key r state) (mm ++ [(key, shape s, shape r)]))
          as (state' & mm' & -> & Hget & Hrec & Hold).
        { intros k Hk. rewrite dict_get_setitem. case_decide; [eauto|].
          apply Hin. by right. }
        exists state', mm'. split_and!; [done| | |].
        -- intros k. rewrite Hget. unfold after_check.
           rewrite dict_get_setitem.
           destruct (decide (k = key)) as [->|Hk].
           ++ rewrite Hr, Hs. rewrite decide_False by naive_solver.
              rewrite decide_True; [done|]. split; [by left|done].
           ++ destruct (dict_get k state) as [s'|]; [|done].
              destruct (random_state !! k) as [r'|]; [|done].
              apply decide_ext. rewrite elem_of_cons. naive_solver.
        -- intros k s' r' [->|Hk]%elem_of_cons Hs' Hr' Hne'.
           ++ simplify_eq. apply Hold. apply elem_of_app. right. by left.
           ++ destruct (decide (k = key)) as [->|Hkk].
              ** simplify_eq. apply Hold. apply elem_of_app. right. by left.
              ** apply Hrec; [done| |done|done].
                 rewrite dict_get_setitem. by rewrite decide_False.
        -- intros t Ht. apply Hold. apply elem_of_app. by left.
      * apply dec_stable in Heq.
        destruct (IH state mm) as (state' & mm' & -> & Hget & Hrec & Hold).
        { intros k Hk. apply Hin. by right. }
        exists state', mm'. split_and!; [done| | |done].
        -- intros k. rewrite Hget. unfold after_check.
           destruct (dict_get k state) as [s'|] eqn:Hs'; [|done].
           destruct (random_state !! k) as [r'|] eqn:Hr'; [|done].
           apply decide_ext. rewrite elem_of_cons.
           split; [naive_solver|]. intros [[->|?] ?]; [|done].
           simplify_eq.
        -- intros k s' r' [->|Hk]%elem_of_cons Hs' Hr' Hne'.
           ++ simplify_eq.
           ++ by eapply Hrec.
    + destruct (IH state mm) as (state' & mm' & -> & Hget & Hrec & Hold).
      { intros k Hk. apply Hin. by right. }
      exists state', mm'. split_and!; [done| | |done].
      * intros k. rewrite Hget. unfold after_check.
        destruct (dict_get k state) as [s'|] eqn:Hs'; [|done].
        destruct (random_state !! k) as [r'|] eqn:Hr'; [|done].
        apply decide_ext. rewrite elem_of_cons.
        split; [naive_solver|]. intros [[->|?] ?]; [|done].
        simplify_eq.
      * intros k s' r' [->|Hk]%elem_of_cons Hs' Hr' Hne'.
        -- simplify_eq.
        -- by eapply Hrec.
Qed.

(** In the default mode the dictionary is never assigned to: the loop
    either runs through or stops at the first key whose shapes differ. *)
Lemma check_shapes_strict_ok ks : ∀ state mm,
  (∀ k, k ∈ ks → is_Some (dict_get k state)) →
  (∀ k, k ∈ ks → ¬ shapes_differ random_state state k) →
  check_shapes false random_state ks state mm = Ok (state, mm).
Proof.
  induction ks as [|key ks IH]; intros state mm Hin Hsame; [done|].
  cbn [check_shapes].
  assert (check_shapes false random_state ks state mm = Ok (state, mm))
    as Hrest.
  { apply IH; intros k Hk; [apply Hin | apply Hsame]; by right. }
  destruct (random_state !! key) as [r|] eqn:Hr; [|done].
  destruct (Hin key) as [s Hs]; [by left|].
  rewrite (getitem_Some _ _ _ Hs). cbn [bind].
  destruct (decide (shape s ≠ shape r)) as [Hne|_]; [|done].
  exfalso. apply (Hsame key); [by left|]. by exists s, r.
Qed.

Lemma check_shapes_strict_raise ks : ∀ state mm,
  (∀ k, k ∈ ks → is_Some (dict_get k state)) →
  (∃ k, k ∈ ks ∧ shapes_differ random_state state k) →
  ∃ key s r before after,
    check_shapes false random_state ks state mm
      = Raise (ValueError (MsgShapeMismatch key (shape s) (shape r)))
    ∧ dict_get key state = Some s
    ∧ random_state !! key = Some r
    ∧ shape s ≠ shape r
    ∧ ks = before ++ key :: after
    ∧ (∀ k, k ∈ before → ¬ shapes_differ random_state state k).
Proof.
  induction ks as [|key ks IH]; intros state mm Hin (k0 & Hk0 & Hdiff).
  { by apply elem_of_nil in Hk0. }
  cbn [check_shapes].
  assert (¬ shapes_differ random_state state key →
          ∃ key' s r before after,
            check_shapes false random_state ks state mm
              = Raise (ValueError (MsgShapeMismatch key' (shape s) (shape r)))
            ∧ dict_get key' state = Some s
            ∧ random_state !! key' = Some r
            ∧ shape s ≠ shape r
            ∧ key :: ks = before ++ key' :: after
            ∧ (∀ k, k ∈ before → ¬ shapes_differ random_state state k))
    as Hrest.
  { intros Hsame.
    destruct (IH state mm) as (key' & s & r & before & after & Hraise
                               & Hs & Hr & Hne & -> & Hfirst).
    - intros k Hk. apply Hin. by right.
    - exists k0. split; [|done].
      apply elem_of_cons in Hk0 as [->|?]; [by destruct Hsame|done].
    - exists key', s, r, (key :: before), after.
      split_and!; try done.
      intros k [->|Hk]%elem_of_cons; [done|by apply Hfirst]. }
  destruct (random_state !! key) as [r|] eqn:Hr.
  - destruct (Hin key) as [s Hs]; [by left|].
    rewrite (getitem_Some _ _ _ Hs). cbn [bind].
    destruct (decide (shape s ≠ shape r)) as [Hne|Heq].
    + exists key, s, r, [], ks. split_and!; try done.
      by intros k ?%elem_of_nil.
    + apply Hrest. intros (s' & r' & Hs' & Hr' & Hne'). by simplify_eq.
  - apply Hrest. intros (s' & r' & Hs' & Hr' & Hne'). by simplify_eq.
Qed.

Lemma add_missing_spec (missing_keys : list path) : ∀ state,
  (∀ k, k ∈ missing_keys → is_Some (random_state !! k)) →
  ∃ state',
    add_missing random_state missing_keys state = Ok state'
    ∧ ∀ k, dict_get k state'
           = if decide (k ∈ missing_keys) then random_state !! k
             else dict_get k state.
Proof.
  induction missing_keys as [|key rest IH]; intros state Hin.
  - exists state. split; [done|]. intros k.
    rewrite decide_False; [done|]. apply not_elem_of_nil.
  - cbn [add_missing]. destruct (Hin key) as [r Hr]; [by left|].
    unfold lookup_item. rewrite Hr. cbn [bind].
    destruct (IH (setitem key r state)) as (state' & -> & Hget).
    { intros k Hk. apply Hin. by right. }
    exists state'. split; [done|]. intros k. rewrite Hget.
    rewrite dict_get_setitem.
    destruct (decide (k ∈ rest)) as [Hk|Hk].
    + rewrite decide_True; [done|by right].
    + destruct (decide (k = key)) as [->|Hne].
      * rewrite decide_True; [done|by left].
      * rewrite decide_False; [done|].
        by intros [?|?]%elem_of_cons.
Qed.

Lemma remove_unexpected_spec (unexpected_keys : list path) : ∀ state,
  NoDup unexpected_keys →
  (∀ k, k ∈ unexpected_keys → is_Some (dict_get k state)) →
  ∃ state',
    remove_unexpected unexpected_keys state = Ok state'
    ∧ ∀ k, dict_get k state'
           = if decide (k ∈ unexpected_keys) then None
             else dict_get k state.
Proof.
  induction unexpected_keys as [|key rest IH]; intros state Hnd Hin.
  - exists state. split; [done|]. intros k.
    rewrite decide_False; [done|]. apply not_elem_of_nil.
  - cbn [remove_unexpected]. apply NoDup_cons in Hnd as [Hfresh Hnd].
    rewrite delitem_Some by (apply Hin; by left). cbn [bind].
    destruct (IH (filter (λ kv, kv.1 ≠ key) state)) as (state' & -> & Hget).
    { done. }
    { intros k Hk. rewrite dict_get_filter_ne.
      rewrite decide_False by (by intros ->). apply Hin. by right. }
    exists state'. split; [done|]. intros k. rewrite Hget.
    rewrite dict_get_filter_ne.
    destruct (decide (k ∈ rest)) as [Hk|Hk].
    + rewrite decide_True; [done|by right].
    + destruct (decide (k = key)) as [->|Hne].
      * rewrite decide_True; [done|by left].
      * rewrite decide_False; [done|].
        by intros [?|?]%elem_of_cons.
Qed.

End reconciliation_loops.

(** *** [from_pretrained]: the reconciled parameters *)

Section reconciliation.
Import Checkpoint.
Implicit Types (init_weights : gmap path tensor) (state : pydict)
  (k : path).

Lemma from_pretrained_ok ignore_mismatched_sizes init_weights state :
  ignore_mismatched_sizes = true
  ∨ (∀ k, ¬ shapes_differ init_weights state k) →
  ∃ new_params mismatched_keys,
    from_pretrained ignore_mismatched_sizes init_weights state
      = Ok ({| params := new_params;
               required_params := dom init_weights |},
            report (dom init_weights ∖ list_to_set (keys state))
                   (list_to_set (keys state) ∖ dom init_weights)
                   mismatched_keys)
    ∧ (∀ k, new_params !! k = reconciled init_weights state k)
    ∧ (∀ k s r, dict_get k state = Some s → init_weights !! k = Some r →
                shape s ≠ shape r →
                (k, shape s, shape r) ∈ mismatched_keys).
Proof.
  intros Hmode. unfold from_pretrained. cbn [params required_params new_model].
  assert (∃ state1 mm,
            check_shapes ignore_mismatched_sizes init_weights (keys state)
              state [] = Ok (state1, mm)
            ∧ (∀ k, dict_get k state1
                    = after_check init_weights (keys state) state k)
            ∧ (∀ k s r, dict_get k state = Some s →
                        init_weights !! k = Some r → shape s ≠ shape r →
                        (k, shape s, shape r) ∈ mm))
    as (state1 & mm & -> & Hget1 & Hmm).
  { destruct ignore_mismatched_sizes.
    - destruct (check_shapes_permissive init_weights (keys state) state [])
        as (state1 & mm & Hrun & Hget & Hrec & _).
      { intros k. by rewrite dict_get_keys. }
      exists state1, mm. split_and!; [done|done|].
      intros k s r Hs Hr Hne. eapply Hrec; [|done..].
      apply dict_get_keys. by rewrite Hs.
    - destruct Hmode as [?|Hsame]; [done|].
      exists state, []. split_and!.
      + apply check_shapes_strict_ok; [|by intros k _].
        intros k. by rewrite dict_get_keys.
      + intros k. unfold after_check.
        destruct (dict_get k state) as [s|] eqn:Hs; [|done].
        destruct (init_weights !! k) as [r|] eqn:Hr; [|done].
        rewrite decide_False; [done|]. intros [_ Hne].
        apply (Hsame k). by exists s, r.
      + intros k s r Hs Hr Hne. destruct (Hsame k). by exists s, r. }
  cbn [bind].
  destruct (add_missing_spec init_weights
              (elements (dom init_weights ∖ list_to_set (keys state)))
              state1) as (state2 & -> & Hget2).
  { intros k [Hk _]%elem_of_elements%elem_of_difference.
    by apply elem_of_dom. }
  cbn [bind].
  destruct (remove_unexpected_spec
              (elements (list_to_set (keys state) ∖ dom init_weights))
              state2) as (state3 & -> & Hget3).
  { apply NoDup_elements. }
  { intros k [Hk Hnk]%elem_of_elements%elem_of_difference.
    rewrite Hget2. rewrite decide_False.
    - rewrite Hget1, after_check_is_Some.
      apply dict_get_keys. by apply elem_of_list_to_set in Hk.
    - intros [? _]%elem_of_elements%elem_of_difference. done. }
  cbn [bind]. exists (list_to_map state3), mm.
  split_and!; [done| |done].
  intros k. rewrite dict_get_list_to_map, Hget3, Hget2, Hget1.
  unfold reconciled, after_check.
  destruct (init_weights !! k) as [r|] eqn:Hr;
    destruct (dict_get k state) as [s|] eqn:Hs.
  - rewrite decide_False.
    2:{ intros [_ Hnk]%elem_of_elements%elem_of_difference.
        apply Hnk, elem_of_dom. by rewrite Hr. }
    rewrite decide_False.
    2:{ intros [_ Hnk]%elem_of_elements%elem_of_difference.
        apply Hnk, elem_of_list_to_set, dict_get_keys. by rewrite Hs. }
    apply decide_ext. split; [by intros [_ ?]|].
    intros Hne. split; [|done]. apply dict_get_keys. by rewrite Hs.
  - rewrite decide_False.
    2:{ intros [Hk _]%elem_of_elements%elem_of_difference.
        apply elem_of_list_to_set, dict_get_keys in Hk.
        rewrite Hs in Hk. by destruct Hk. }
    rewrite decide_True; [done|].
    apply elem_of_elements, elem_of_difference. split.
    + apply elem_of_dom. by rewrite Hr.
    + intros Hk%elem_of_list_to_set%dict_get_keys.
      rewrite Hs in Hk. by destruct Hk.
  - rewrite decide_True; [done|].
    apply elem_of_elements, elem_of_difference. split.
    + apply elem_of_list_to_set, dict_get_keys. by rewrite Hs.
    + intros Hk%elem_of_dom. rewrite Hr in Hk. by destruct Hk.
  - by repeat case_decide.
Qed.

(** C1 (as amended). Whenever loading does not stop on a shape mismatch,
    that is, mismatched sizes are permitted or no key of the checkpoint
    has a shape other than the model's, reconciliation returns a model
    whose flat key set is exactly the required-parameter set: a key
    missing from the checkpoint holds its freshly initialised value, and a
    key of the checkpoint outside the required set is dropped.  Loading
    fails only in the default mode and only when some shapes differ, so
    missing or unexpected keys never make it fail. *)
Theorem from_pretrained_key_set ignore_mismatched_sizes init_weights state :
  (ignore_mismatched_sizes = true
   ∨ (∀ k, ¬ shapes_differ init_weights state k) →
   ∃ model log,
     from_pretrained ignore_mismatched_sizes init_weights state
       = Ok (model, log)
     ∧ dom (params model) = required_params (new_model init_weights)
     ∧ required_params model = required_params (new_model init_weights)
     ∧ (∀ k, k ∈ required_params (new_model init_weights) →
             k ∉ keys state → params model !! k = init_weights !! k)
     ∧ (∀ k, k ∈ keys state →
             k ∉ required_params (new_model init_weights) →
             params model !! k = None))
  ∧ (fails (from_pretrained ignore_mismatched_sizes init_weights state) →
     ignore_mismatched_sizes = false
     ∧ ¬ (∀ k, ¬ shapes_differ init_weights state k)).
Proof.
  assert (ignore_mismatched_sizes = true
          ∨ (∀ k, ¬ shapes_differ init_weights state k) →
          ∃ model log,
            from_pretrained ignore_mismatched_sizes init_weights state
              = Ok (model, log)
            ∧ dom (params model) = required_params (new_model init_weights)
            ∧ required_params model = required_params (new_model init_weights)
            ∧ (∀ k, k ∈ required_params (new_model init_weights) →
                    k ∉ keys state → params model !! k = init_weights !! k)
            ∧ (∀ k, k ∈ keys state →
                    k ∉ required_params (new_model init_weights) →
                    params model !! k = None)) as Hok.
  { intros Hmode.
    destruct (from_pretrained_ok _ _ _ Hmode)
      as (new_params & mm & Hrun & Hget & _).
    eexists _, _. split; [exact Hrun|]. cbn [params required_params new_model].
    split_and!; [|done| |].
    - apply set_eq. intros k. rewrite !elem_of_dom, Hget. unfold reconciled.
      destruct (init_weights !! k) as [r|]; [|done].
      destruct (dict_get k state) as [s|]; [|done].
      case_decide; split; eauto.
    - intros k [r Hr]%elem_of_dom Hnk. rewrite Hget. unfold reconciled.
      rewrite Hr. destruct (dict_get k state) as [s|] eqn:Hs; [|done].
      destruct Hnk. apply dict_get_keys. by rewrite Hs.
    - intros k _ Hnk. rewrite Hget. unfold reconciled.
      destruct (init_weights !! k) as [r|] eqn:Hr; [|done].
      destruct Hnk. apply elem_of_dom. by rewrite Hr. }
  split; [exact Hok|].
  intros Hfail. split.
  - destruct ignore_mismatched_sizes; [|done].
    destruct Hok as (model & log & Hrun & _); [by left|].
    exfalso. eapply succeeds_not_fails; [|exact Hfail]. by eexists.
  - intros Hsame. destruct Hok as (model & log & Hrun & _); [by right|].
    eapply succeeds_not_fails; [|exact Hfail]. by eexists.
Qed.

Lemma from_pretrained_key_set_witness :
  ∃ model log,
    from_pretrained true example_weights example_state = Ok (model, log)
    ∧ dom (params model) = required_params (new_model example_weights)
    ∧ required_params model = required_params (new_model example_weights)
    ∧ (∀ k, k ∈ required_params (new_model example_weights) →
            k ∉ keys example_state →
            params model !! k = example_weights !! k)
    ∧ (∀ k, k ∈ keys example_state →
            k ∉ required_params (new_model example_weights) →
            params model !! k = None).
Proof.
  apply (proj1 (from_pretrained_key_set true example_weights example_state)).
  left. reflexivity.
Defined.

(** In the default mode the example checkpoint, whose kernel has another
    shape than the model's, yields no parameter tree at all. *)
Lemma from_pretrained_mismatch_no_tree :
  ¬ ∃ model log,
      from_pretrained false example_weights example_state = Ok (model, log)
      ∧ dom (params model) = required_params (new_model example_weights).
Proof.
  intros (model & log & Hrun & _). vm_compute in Hrun. discriminate Hrun.
Qed.

Lemma report_mismatched missing_keys unexpected_keys mismatched_keys t :
  t ∈ mismatched_keys →
  WarnMismatchedShapes mismatched_keys
    ∈ report missing_keys unexpected_keys mismatched_keys.
Proof.
  intros Ht. unfold report. rewrite !elem_of_app. right. right.
  rewrite decide_True; [by left|].
  destruct mismatched_keys; [by apply elem_of_nil in Ht|cbn; lia].
Qed.

(** C2 (as amended). Let a key be present in the checkpoint and in the
    freshly initialised parameters with different shapes.  In the default mode
    loading raises an error that names a key and the two shapes it has in
    the checkpoint and in the model; the key named is the first one, in the
    checkpoint's order, whose shapes differ (hence the given key itself
    when it is the only one).  With mismatched sizes permitted loading
    succeeds, the parameters hold the freshly initialised tensor at the
    key, and the triple of the key, its checkpoint shape and its model
    shape is among the mismatches that are reported. *)
Theorem from_pretrained_shape_mismatch init_weights state k s r :
  dict_get k state = Some s →
  init_weights !! k = Some r →
  shape s ≠ shape r →
  (∃ key s' r' before after,
     from_pretrained false init_weights state
       = Raise (ValueError (MsgShapeMismatch key (shape s') (shape r')))
     ∧ dict_get key state = Some s'
     ∧ init_weights !! key = Some r'
     ∧ shape s' ≠ shape r'
     ∧ keys state = before ++ key :: after
     ∧ (∀ k', k' ∈ before → ¬ shapes_differ init_weights state k')
     ∧ ((∀ k', shapes_differ init_weights state k' → k' = k) →
        key = k ∧ s' = s ∧ r' = r))
  ∧ (∃ model log mismatched_keys,
       from_pretrained true init_weights state = Ok (model, log)
       ∧ params model !! k = Some r
       ∧ WarnMismatchedShapes mismatched_keys ∈ log
       ∧ (k, shape s, shape r) ∈ mismatched_keys).
Proof.
  intros Hs Hr Hne. split.
  - destruct (check_shapes_strict_raise init_weights (keys state) state [])
      as (key & s' & r' & before & after & Hraise & Hs' & Hr' & Hne'
          & Hsplit & Hfirst).
    { intros k'. by rewrite dict_get_keys. }
    { exists k. split; [apply dict_get_keys; by rewrite Hs|by exists s, r]. }
    exists key, s', r', before, after. split_and!; try done.
    + unfold from_pretrained. cbn [params new_model]. by rewrite Hraise.
    + intros Honly. assert (key = k) as -> by (apply Honly; by exists s', r').
      by simplify_eq.
  - destruct (from_pretrained_ok true init_weights state)
      as (new_params & mm & Hrun & Hget & Hmm); [by left|].
    eexists _, _, mm. split; [exact Hrun|]. cbn [params].
    assert ((k, shape s, shape r) ∈ mm) as Hin by by eapply Hmm.
    split_and!; [|by eapply report_mismatched|done].
    rewrite Hget. unfold reconciled. rewrite Hr, Hs. by rewrite decide_True.
Qed.

Lemma from_pretrained_shape_mismatch_witness :
  (∃ key s' r' before after,
     from_pretrained false example_weights example_state
       = Raise (ValueError (MsgShapeMismatch key (shape s') (shape r')))
     ∧ dict_get key example_state = Some s'
     ∧ example_weights !! key = Some r'
     ∧ shape s' ≠ shape r'
     ∧ keys example_state = before ++ key :: after
     ∧ (∀ k', k' ∈ before → ¬ shapes_differ example_weights example_state k')
     ∧ ((∀ k', shapes_differ example_weights example_state k' →
               k' = ["lm_head"; "kernel"]) →
        key = ["lm_head"; "kernel"]
        ∧ s' = {| shape := [2; 4]; data := [0; 0; 0; 0; 0; 0; 0; 0] |}
        ∧ r' = {| shape := [2; 3]; data := [1; 2; 3; 4; 5; 6] |}))
  ∧ (∃ model log mismatched_keys,
       from_pretrained true example_weights example_state = Ok (model, log)
       ∧ params model !! ["lm_head"; "kernel"]
         = Some {| shape := [2; 3]; data := [1; 2; 3; 4; 5; 6] |}
       ∧ WarnMismatchedShapes mismatched_keys ∈ log
       ∧ (["lm_head"; "kernel"], [2; 4], [2; 3]) ∈ mismatched_keys).
Proof.
  apply (from_pretrained_shape_mismatch example_weights example_state
           ["lm_head"; "kernel"]
           {| shape := [2; 4]; data := [0; 0; 0; 0; 0; 0; 0; 0] |}
           {| shape := [2; 3]; data := [1; 2; 3; 4; 5; 6] |}).
  - reflexivity.
  - vm_compute. reflexivity.
  - cbn. discriminate.
Defined.

(** Two keys with differing shapes: for the second key of the checkpoint
    the error of the default mode names the first key and its shapes, not
    the second key and its shapes. *)
Lemma from_pretrained_names_first_mismatch :
  dict_get ["b"] two_mismatches_state
    = Some {| shape := [7]; data := [0; 0; 0; 0; 0; 0; 0] |}
  ∧ two_weights !! ["b"] = Some {| shape := [3]; data := [3; 4; 5] |}
  ∧ shapes_differ two_weights two_mismatches_state ["b"]
  ∧ from_pretrained false two_weights two_mismatches_state
    = Raise (ValueError (MsgShapeMismatch ["a"] [9] [2]))
  ∧ from_pretrained false two_weights two_mismatches_state
    ≠ Raise (ValueError (MsgShapeMismatch ["b"] [7] [3])).
Proof.
  assert (two_weights !! ["b"] = Some {| shape := [3]; data := [3; 4; 5] |})
    as Hb by (vm_compute; reflexivity).
  assert (from_pretrained false two_weights two_mismatches_state
          = Raise (ValueError (MsgShapeMismatch ["a"] [9] [2]))) as Hraise
    by (vm_compute; reflexivity).
  split_and!; [reflexivity|exact Hb| |exact Hraise|].
  - eexists _, _. split_and!; [reflexivity|exact Hb|]. cbn. discriminate.
  - rewrite Hraise. discriminate.
Qed.

End reconciliation.

(** *** [from_pretrained]: reading the checkpoint file *)

Section read_state_facts.
Import Checkpoint.
Context {S : Type}.
Implicit Types (from_bytes : res S) (text : option string).

(** C8 (as amended). When deserialising the checkpoint file raises an
    unpickling error or an extra-data error, loading aborts: with the
    specific git-lfs diagnostic when the file's text starts with the
    marker word, and with the generic unable-to-convert diagnostic
    otherwise, also when the file is not text at all.  Any other exception
    of the deserialiser leaves [from_pretrained] unchanged, which aborts
    loading as well. *)
Theorem read_state_format_error archive_file from_bytes text e :
  from_bytes = Raise e →
  fails (read_state archive_file from_bytes text)
  ∧ (is_format_error e = true →
     read_state archive_file from_bytes text
     = if has_marker text
       then Raise (OSError MsgGitLfs)
       else Raise (OSError (MsgUnableToConvert archive_file)))
  ∧ (is_format_error e = false →
     read_state archive_file from_bytes text = Raise e).
Proof.
  intros ->. unfold read_state.
  destruct (is_format_error e) eqn:Hfmt.
  - assert (match diagnose S text with
            | Ok state => Ok state
            | Raise e' =>
                if is_decode_or_value_error e'
                then Raise (OSError (MsgUnableToConvert archive_file))
                else Raise e'
            end
            = if has_marker text
              then Raise (OSError MsgGitLfs)
              else Raise (OSError (MsgUnableToConvert archive_file)))
      as ->.
    { unfold diagnose, has_marker, read_text.
      destruct text as [t|]; cbn [bind]; [|done].
      by destruct (String.prefix "version" t). }
    split_and!; [|done|done].
    destruct (has_marker text); apply fails_Raise.
  - split_and!; [apply fails_Raise|done|done].
Qed.

End read_state_facts.

Lemma read_state_format_error_witness :
  fails (@Checkpoint.read_state Checkpoint.pydict "flax_model.msgpack"
           (Raise ExtraData)
           (Some "version https://git-lfs.github.com/spec/v1"))
  ∧ (Checkpoint.is_format_error ExtraData = true →
     @Checkpoint.read_state Checkpoint.pydict "flax_model.msgpack"
       (Raise ExtraData)
       (Some "version https://git-lfs.github.com/spec/v1")
     = if Checkpoint.has_marker
            (Some "version https://git-lfs.github.com/spec/v1")
       then Raise (OSError MsgGitLfs)
       else Raise (OSError (MsgUnableToConvert "flax_model.msgpack")))
  ∧ (Checkpoint.is_format_error ExtraData = false →
     @Checkpoint.read_state Checkpoint.pydict "flax_model.msgpack"
       (Raise ExtraData)
       (Some "version https://git-lfs.github.com/spec/v1")
     = Raise ExtraData).
Proof.
  apply (read_state_format_error "flax_model.msgpack" (Raise ExtraData)
           (Some "version https://git-lfs.github.com/spec/v1") ExtraData).
  reflexivity.
Defined.

(** A truncated checkpoint makes the deserialiser raise a plain
    [ValueError]; it is not among the classes the loader catches, so it
    leaves [from_pretrained] as it is, and neither diagnostic is raised. *)
Lemma read_state_incomplete_input :
  let load := @Checkpoint.read_state Checkpoint.pydict "flax_model.msgpack"
                (Raise (ValueError (MsgOther "Unpack failed: incomplete input")))
                (Some "") in
  Checkpoint.has_marker (Some "") = false
  ∧ load ≠ Raise (OSError (MsgUnableToConvert "flax_model.msgpack"))
  ∧ load ≠ Raise (OSError MsgGitLfs).
Proof. cbn. split_and!; [reflexivity|discriminate|discriminate]. Qed.

(** *** The module tree *)

Section module_tree.
Import Bart.
Variable ACT2FN : list string.
Variable config : DalleBartConfig.

Lemma build_layers_succeeds {L : Type} (layer_setup : res L) (idx : list nat) :
  succeeds layer_setup → succeeds (build_layers layer_setup idx).
Proof.
  intros [l ->]. induction idx as [|i idx [ls IH]]; cbn.
  - apply succeeds_Ok.
  - rewrite IH. cbn. apply succeeds_Ok.
Qed.






Lemma elem_of_under name ps k :
  k ∈ (under name ps).*1 ↔ ∃ k', k = name :: k' ∧ k' ∈ ps.*1.
Proof.
  unfold under. rewrite <- list_fmap_compose. rewrite !list_elem_of_fmap.
  split.
  - intros ([k' v] & -> & Hin). exists k'. split; [done|].
    apply list_elem_of_fmap. by exists (k', v).
  - intros (k' & -> & ([k'' v] & -> & Hin)%list_elem_of_fmap).
    by exists (k'', v).
Qed.

(** Every parameter of the module tree lies under the encoder, under the
    decoder or under the output projection. *)
Lemma generation_module_params_scope m k :
  k ∈ (generation_module_params m).*1 →
  (∃ k', k = "model" :: "encoder" :: k')
  ∨ (∃ k', k = "model" :: "decoder" :: k')
  ∨ (∃ k', k = "lm_head" :: k').
Proof.
  unfold generation_module_params. rewrite fmap_app, elem_of_app.
  rewrite !elem_of_under. intros [(k' & -> & Hk')|(k' & -> & _)].
  - unfold module_params in Hk'. rewrite fmap_app, elem_of_app in Hk'.
    rewrite !elem_of_under in Hk'.
    destruct Hk' as [(k'' & -> & _)|(k'' & -> & _)]; eauto.
  - eauto.
Qed.

Lemma decoder_table_is_parameter m :
  ["model"; "decoder"; "embed_tokens"; "embedding"]
    ∈ (generation_module_params m).*1.
Proof.
  unfold generation_module_params. rewrite fmap_app, elem_of_app. left.
  apply elem_of_under. eexists. split; [done|].
  unfold module_params. rewrite fmap_app, elem_of_app. right.
  apply elem_of_under. eexists. split; [done|].
  unfold decoder_params. rewrite fmap_app, elem_of_app. left.
  apply elem_of_under. eexists. split; [done|].
  cbn. by left.
Qed.

Lemma dom_init_weights_abstract m :
  dom (init_weights_abstract m)
  = list_to_set (generation_module_params m).*1.
Proof.
  unfold init_weights_abstract. rewrite dom_list_to_map_L. f_equal.
  by rewrite <- list_fmap_compose.
Qed.

(** C5. With [tie_word_embeddings] set, the projection does not reach the
    decoder's input-embedding table: it asks the variables of
    [module.model] for "shared", a parameter the module tree of this file
    does not create (its embeddings are separate and live under the
    encoder and the decoder), and raises [KeyError], although the decoder
    table is there. *)
Theorem tied_projection_raises (m : ForConditionalGenerationModule)
    (dense_apply : tensor → tensor → tensor) (transpose : tensor → tensor)
    (params : gmap path tensor) (hidden_states : tensor) :
  FlaxBartForConditionalGenerationModule_setup ACT2FN config = Ok m →
  tie_word_embeddings config = true →
  dom params = list_to_set (generation_module_params m).*1 →
  lm_logits config dense_apply transpose params hidden_states
    = Raise (KeyError ["shared"])
  ∧ is_Some (lm_logits_tied_to_decoder_table dense_apply transpose
               params hidden_states).
Proof.
  intros _ Htie Hdom. split.
  - unfold lm_logits. rewrite Htie. cbn [getitems].
    assert (has_key params ["model"] "shared" = false) as ->; [|done].
    unfold has_key. apply bool_decide_eq_false.
    intros (k & Hk & Hpre). rewrite Hdom in Hk.
    apply elem_of_list_to_set, generation_module_params_scope in Hk.
    destruct Hpre as [rest Hrest]. cbn in Hrest.
    destruct Hk as [[k' ->]|[[k' ->]|[k' ->]]]; discriminate.
  - unfold lm_logits_tied_to_decoder_table.
    assert (is_Some (params !! ["model"; "decoder"; "embed_tokens"; "embedding"]))
      as [table ->]; [|by eexists].
    apply elem_of_dom. rewrite Hdom. apply elem_of_list_to_set.
    apply decoder_table_is_parameter.
Qed.

End module_tree.


Lemma tied_projection_raises_witness :
  ∃ m, Bart.FlaxBartForConditionalGenerationModule_setup
         Bart.example_ACT2FN Bart.example_tied_config = Ok m
       ∧ Bart.lm_logits Bart.example_tied_config (λ kernel _, kernel)
           (λ t, t) (Bart.init_weights_abstract m)
           {| shape := [1; 1; 8]; data := [] |}
         = Raise (KeyError ["shared"]).
Proof.
  eexists. split; [vm_compute; reflexivity|].
  refine (proj1 (tied_projection_raises Bart.example_ACT2FN
                   Bart.example_tied_config _
                   (λ kernel _, kernel) (λ t, t) _
                   {| shape := [1; 1; 8]; data := [] |} _ _ _)).
  - vm_compute. reflexivity.
  - reflexivity.
  - apply dom_init_weights_abstract.
Defined.

(** *** [decode] *)

Section decode_facts.
Import Decode.
Variable self : DalleBart.
Variable decoder_module : apply_inputs → decoder_outputs_t * cache.
Variables (dense_apply : tensor → tensor → tensor)
  (transpose : tensor → tensor).
Implicit Types (decoder_input_ids : array2)
  (encoder_outputs : encoder_outputs_t)
  (encoder_attention_mask decoder_attention_mask
     decoder_position_ids : option array2)
  (past_key_values : option cache)
  (output_attentions output_hidden_states return_dict : option bool)
  (train : bool) (params : option (gmap path tensor))
  (dropout_rng : option tensor).

Lemma ones_of_nat (b n : nat) :
  ones (Z.of_nat b) (Z.of_nat n) = Ok (all_ones b n).
Proof.
  unfold ones, all_ones. rewrite !decide_False by lia.
  by rewrite !Nat2Z.id.
Qed.

(** C4. When a cache is supplied and the position ids are omitted,
    [decode] raises whatever the other arguments are, before the decoder
    is run; whenever the encoder mask is supplied or can be built from the
    encoder output, the error raised is the one that asks for
    [decoder_position_ids]. *)
Theorem decode_cache_needs_position_ids decoder_input_ids encoder_outputs
    encoder_attention_mask decoder_attention_mask (supplied_cache : cache)
    output_attentions output_hidden_states return_dict train params
    dropout_rng :
  let outcome :=
    decode self decoder_module dense_apply transpose decoder_input_ids
      encoder_outputs encoder_attention_mask decoder_attention_mask None
      (Some supplied_cache) output_attentions output_hidden_states
      return_dict train params dropout_rng in
  fails outcome
  ∧ (is_Some encoder_attention_mask
     ∨ (∃ (b n : nat) rest,
          shape (encoder_last_hidden_state encoder_outputs)
          = Z.of_nat b :: Z.of_nat n :: rest) →
     outcome = Raise (ValueError MsgProvidePositionIds)).
Proof.
  cbn zeta. unfold decode, decode_inputs.
  rewrite ones_of_nat.
  destruct encoder_attention_mask as [enc_mask|].
  - cbn [bind].
    destruct decoder_attention_mask as [dec_mask|]; cbn [bind];
      (split; [apply fails_Raise|done]).
  - destruct (leading_two (encoder_last_hidden_state encoder_outputs))
      as [[b n]|e] eqn:Hdims; cbn [bind].
    + destruct (ones b n) as [enc_mask|e] eqn:Hones; cbn [bind fst snd].
      * rewrite Hones. cbn [bind].
        destruct decoder_attention_mask as [dec_mask|]; cbn [bind];
          (split; [apply fails_Raise|done]).
      * rewrite Hones. cbn [bind]. split; [apply fails_Raise|].
        intros [[? [=]]|(b' & n' & rest & Hshape)].
        unfold leading_two in Hdims. rewrite Hshape in Hdims.
        injection Hdims as <- <-. by rewrite ones_of_nat in Hones.
    + split; [apply fails_Raise|].
      intros [[? [=]]|(b' & n' & rest & Hshape)].
      unfold leading_two in Hdims. by rewrite Hshape in Hdims.
Qed.


Lemma arange_lookup (n j : nat) :
  (j < n)%nat → arange n !! j = Some (Z.of_nat j).
Proof.
  intros Hj. unfold arange.
  change (map Z.of_nat (seq 0 n)) with (Z.of_nat <$> seq 0 n).
  rewrite list_lookup_fmap, lookup_seq_lt by done. done.
Qed.



End decode_facts.

Lemma decode_cache_needs_position_ids_witness :
  Decode.decode Decode.example_model
    (λ inputs, ({| Decode.last_hidden_state := {| shape := []; data := [] |};
                   Decode.hidden_states := None;
                   Decode.attentions := None;
                   Decode.cross_attentions := None |},
                Decode.or_default (Decode.in_cache inputs) []))
    (λ kernel _, kernel) (λ t, t)
    Decode.example_input_ids Decode.example_encoder_outputs
    None None None
    (Some (Decode.init_cache Bart.example_config 2 3 None))
    None None None false None None
  = Raise (ValueError MsgProvidePositionIds).
Proof.
  refine (proj2 (decode_cache_needs_position_ids Decode.example_model _ _ _
                   Decode.example_input_ids Decode.example_encoder_outputs
                   None None (Decode.init_cache Bart.example_config 2 3 None)
                   None None None false None None) _).
  right. exists 2%nat, 4%nat, [8]. reflexivity.
Defined.



(** *** [prepare_inputs_for_generation] *)

Section generation_facts.
Import Decode Generation.
Implicit Types (row : list Z) (a mask : array2).

Lemma wrap32_range z : - 2 ^ 31 ≤ wrap32 z < 2 ^ 31.
Proof.
  unfold wrap32.
  pose proof (Z.mod_pos_bound (z + 2 ^ 31) (2 ^ 32)) as Hb. lia.
Qed.

Lemma wrap32_small z : - 2 ^ 31 ≤ z < 2 ^ 31 → wrap32 z = z.
Proof. intros Hz. unfold wrap32. rewrite Z.mod_small; lia. Qed.

Lemma wrap32_idemp z : wrap32 (wrap32 z) = wrap32 z.
Proof. apply wrap32_small, wrap32_range. Qed.

(** A masked position repeats the running sum of the position before. *)
Lemma cumsum_from_masked row : ∀ acc j c,
  cumsum_from acc row !! j = Some c →
  row !! S j = Some 0 →
  cumsum_from acc row !! S j = Some c.
Proof.
  induction row as [|x row IH]; intros acc j c Hc Hz; [done|].
  destruct j as [|j].
  - destruct row as [|y row]; [done|]. cbn in Hc, Hz |- *.
    injection Hc as <-. injection Hz as ->.
    by rewrite Z.add_0_r, wrap32_idemp.
  - cbn in Hc, Hz |- *. by apply IH.
Qed.

Lemma update_rows_length (operand update : list (list Z)) :
  length (update_rows operand update) = length operand.
Proof.
  revert update. induction operand as [|o operand IH]; intros [|u update];
    cbn; try done. by rewrite IH.
Qed.

Lemma update_rows_lookup (operand update : list (list Z)) i o :
  operand !! i = Some o →
  update_rows operand update !! i
  = Some (match update !! i with
          | Some u => u ++ drop (length u) o
          | None => o
          end).
Proof.
  revert update i. induction operand as [|o' operand IH];
    intros [|u update] [|i] Ho; cbn in *; try done.
  - by injection Ho as ->.
  - by apply IH.
Qed.

Lemma init_cache_entries config (batch_size : nat) (max_length : Z)
    (encoder_outputs : option encoder_outputs_t) :
  length (init_cache config batch_size max_length encoder_outputs)
  = Z.to_nat (decoder_layers config)
  ∧ ∀ name c,
      (name, c) ∈ init_cache config batch_size max_length encoder_outputs →
      positions c = Some max_length
      ∧ cache_index c = 0
      ∧ cached_key c = cached_value c
      ∧ Forall (λ w, w = 0) (data (cached_key c)).
Proof.
  unfold init_cache, Bart.range. split.
  - by rewrite length_map, length_seq.
  - intros name c (i & [= -> ->] & _)%list_elem_of_fmap. cbn.
    split_and!; try done. apply Forall_replicate. done.
Qed.

Lemma cumsum_from_length row : ∀ acc,
  length (cumsum_from acc row) = length row.
Proof. induction row as [|x row IH]; intros acc; cbn; [done|]. by rewrite IH. Qed.

(** On a row of zeros and ones that is shorter than 2^31 the running sum
    never wraps: it counts the ones. *)
Lemma cumsum_from_counts row : ∀ acc j,
  binary_row row →
  0 ≤ acc →
  acc + Z.of_nat (length row) < 2 ^ 31 →
  (j < length row)%nat →
  cumsum_from acc row !! j = Some (acc + unmasked_upto j row).
Proof.
  unfold unmasked_upto.
  induction row as [|x row IH]; intros acc j Hbin Hacc Hlen Hj;
    [cbn in Hj; lia|].
  apply Forall_cons in Hbin as [Hx Hbin]. cbn [length] in Hlen, Hj.
  assert (wrap32 (acc + x) = acc + x) as Hstep
    by (apply wrap32_small; lia).
  destruct j as [|j]; cbn [cumsum_from lookup list_lookup].
  - cbn. rewrite Hstep. f_equal. destruct row; cbn; lia.
  - cbn [lookup]. rewrite Hstep.
    rewrite IH by (try done; lia). f_equal. cbn [take foldr]. lia.
Qed.

Lemma unmasked_upto_bounds row j :
  binary_row row → 0 ≤ unmasked_upto j row ≤ Z.of_nat (length row).
Proof.
  unfold unmasked_upto. intros Hbin. revert j.
  induction row as [|x row IH]; intros j; [cbn; lia|].
  apply Forall_cons in Hbin as [Hx Hbin]. cbn [take foldr length].
  destruct j as [|j].
  - destruct row; cbn; lia.
  - specialize (IH Hbin j). destruct row as [|y row]; [cbn in *; lia|].
    cbn [take] in IH |- *. cbn [length] in IH |- *. lia.
Qed.

(** The running sum of 32-bit integers, position by position. *)
Lemma cumsum_from_lookup row : ∀ acc j,
  (j < length row)%nat →
  cumsum_from acc row !! j
  = Some (foldl (λ sum x, wrap32 (sum + x)) acc (take (S j) row)).
Proof.
  induction row as [|x row IH]; intros acc j Hj; [cbn in Hj; lia|].
  destruct j as [|j].
  - cbn. by rewrite take_0.
  - cbn [cumsum_from lookup list_lookup]. cbn [lookup].
    rewrite IH by (cbn in Hj; lia). done.
Qed.

(** C6 (as amended). For a target length [max_length] of at least one
    and a decoder mask, if any, that fits into [max_length - 1] columns
    and the rows of the batch, [prepare_inputs_for_generation] returns:
    the cache that [init_cache] allocates for [max_length - 1] positions,
    one entry per decoder layer with zeroed buffers and the cursor at
    zero; a decoder attention mask of width [max_length - 1] whose rows
    start with the rows of the supplied mask and are one everywhere else;
    and position ids that hold, at every position of a row of the
    supplied mask, the running 32-bit sum of the row up to that position
    minus one (on a row of zeros and ones, the number of unmasked
    positions so far minus one), so that a masked position repeats the
    position id before it; without a mask they hold j at column j of
    every row, for the columns of [decoder_input_ids]. *)
Theorem prepare_inputs_for_generation_spec (self : DalleBart)
    (decoder_input_ids : array2) (max_length : Z)
    (attention_mask decoder_attention_mask : option array2)
    (encoder_outputs : option encoder_outputs_t) :
  1 ≤ max_length →
  (∀ mask, decoder_attention_mask = Some mask →
           well_formed mask
           ∧ (nrows mask ≤ nrows decoder_input_ids)%nat
           ∧ Z.of_nat (ncols mask) ≤ max_length - 1) →
  let batch_size := nrows decoder_input_ids in
  let seq_length := ncols decoder_input_ids in
  let width := Z.to_nat (max_length - 1) in
  ∃ g,
    prepare_inputs_for_generation self decoder_input_ids max_length
      attention_mask decoder_attention_mask encoder_outputs = Ok g
    ∧ g_past_key_values g
      = init_cache (config self) batch_size (max_length - 1) encoder_outputs
    ∧ length (g_past_key_values g)
      = Z.to_nat (decoder_layers (config self))
    ∧ (∀ name c, (name, c) ∈ g_past_key_values g →
         positions c = Some (max_length - 1)
         ∧ cache_index c = 0
         ∧ Forall (λ w, w = 0) (data (cached_key c))
         ∧ Forall (λ w, w = 0) (data (cached_value c)))
    ∧ nrows (g_decoder_attention_mask g) = batch_size
    ∧ Z.of_nat (ncols (g_decoder_attention_mask g)) = max_length - 1
    ∧ well_formed (g_decoder_attention_mask g)
    ∧ (∀ i, (i < batch_size)%nat →
         rows (g_decoder_attention_mask g) !! i
         = Some (match decoder_attention_mask ≫= (λ mask, rows mask !! i) with
                 | Some prefix => prefix ++ replicate (width - length prefix) 1
                 | None => replicate width 1
                 end))
    ∧ (decoder_attention_mask = None →
       nrows (g_decoder_position_ids g) = batch_size
       ∧ ncols (g_decoder_position_ids g) = seq_length
       ∧ length (rows (g_decoder_position_ids g)) = batch_size
       ∧ ∀ i ids, rows (g_decoder_position_ids g) !! i = Some ids →
           length ids = seq_length
           ∧ ∀ j, (j < seq_length)%nat → ids !! j = Some (Z.of_nat j))
    ∧ (∀ mask, decoder_attention_mask = Some mask →
       nrows (g_decoder_position_ids g) = nrows mask
       ∧ ncols (g_decoder_position_ids g) = ncols mask
       ∧ length (rows (g_decoder_position_ids g)) = nrows mask
       ∧ ∀ i row, rows mask !! i = Some row →
           ∃ ids,
             rows (g_decoder_position_ids g) !! i = Some ids
             ∧ length ids = length row
             ∧ (∀ j, (j < length row)%nat →
                  ids !! j
                  = Some (wrap32
                            (foldl (λ sum x, wrap32 (sum + x)) 0
                               (take (S j) row) - 1)))
             ∧ (Forall (λ x, x = 0 ∨ x = 1) row →
                Z.of_nat (length row) < 2 ^ 31 →
                ∀ j, (j < length row)%nat →
                  ids !! j = Some (foldr Z.add 0 (take (S j) row) - 1))
             ∧ (∀ j, row !! S j = Some 0 → ids !! S j = ids !! j))
    ∧ g_encoder_outputs g = encoder_outputs
    ∧ g_encoder_attention_mask g = attention_mask.
Proof.
  intros Hlen Hfit. cbn zeta. unfold prepare_inputs_for_generation.
  assert (ones (Z.of_nat (nrows decoder_input_ids)) (max_length - 1)
          = Ok (all_ones (nrows decoder_input_ids)
                  (Z.to_nat (max_length - 1)))) as ->.
  { unfold ones, all_ones. rewrite !decide_False by lia.
    by rewrite Nat2Z.id. }
  cbn [bind].
  destruct (init_cache_entries (config self) (nrows decoder_input_ids)
              (max_length - 1) encoder_outputs) as [Hlayers Hentries].
  assert (∀ name c,
            (name, c) ∈ init_cache (config self) (nrows decoder_input_ids)
                          (max_length - 1) encoder_outputs →
            positions c = Some (max_length - 1)
            ∧ cache_index c = 0
            ∧ Forall (λ w, w = 0) (data (cached_key c))
            ∧ Forall (λ w, w = 0) (data (cached_value c))) as Hcache.
  { intros name c Hin. destruct (Hentries name c Hin) as (? & ? & Heq & ?).
    split_and!; try done. by rewrite <- Heq. }
  destruct decoder_attention_mask as [mask|].
  - destruct (Hfit mask eq_refl) as ([Hrows Hcols] & Hb & Hw).
    unfold dynamic_update_slice, all_ones. cbn [nrows ncols].
    rewrite decide_True by lia. cbn [bind fst snd].
    eexists. split; [reflexivity|].
    cbn [g_past_key_values g_decoder_attention_mask g_decoder_position_ids
         g_encoder_outputs g_encoder_attention_mask nrows ncols rows mbind
         option_bind].
    split_and!; try done.
    + lia.
    + split; cbn [rows nrows ncols].
      * by rewrite update_rows_length, length_replicate.
      * apply Forall_lookup. intros i r Hr.
        assert (i < nrows decoder_input_ids)%nat as Hi.
        { apply lookup_lt_Some in Hr.
          by rewrite update_rows_length, length_replicate in Hr. }
        rewrite (update_rows_lookup _ _ i (replicate (Z.to_nat (max_length - 1)) 1))
          in Hr by (by apply lookup_replicate_2).
        injection Hr as <-.
        destruct (rows mask !! i) as [u|] eqn:Hu.
        -- rewrite length_app, length_drop, length_replicate.
           assert (length u = ncols mask) as ->
             by (eapply Forall_lookup_1 in Hcols; [exact Hcols|exact Hu]).
           lia.
        -- by rewrite length_replicate.
    + intros i Hi.
      rewrite (update_rows_lookup _ _ i (replicate (Z.to_nat (max_length - 1)) 1))
        by (by apply lookup_replicate_2).
      destruct (rows mask !! i) as [u|]; [|done].
      by rewrite drop_replicate.
    + intros mask' [= <-]. unfold cumsum_minus_one. cbn [nrows ncols rows].
      split_and!; [done|done|by rewrite length_map|].
      intros i row Hrow.
      exists (map (λ c, wrap32 (c - 1)) (cumsum_from 0 row)).
      change (map ?f ?l) with (f <$> l).
      rewrite list_lookup_fmap, Hrow. split; [done|].
      rewrite length_fmap, cumsum_from_length. split; [done|].
      split_and!.
      * intros j Hj. rewrite list_lookup_fmap.
        by rewrite cumsum_from_lookup by done.
      * intros Hbin Hshort j Hj. rewrite list_lookup_fmap.
        rewrite (cumsum_from_counts row 0 j) by (try done; lia). cbn.
        f_equal. rewrite Z.add_0_l.
        pose proof (unmasked_upto_bounds row j Hbin) as Hbound.
        unfold unmasked_upto in Hbound |- *. apply wrap32_small. lia.
      * intros j Hzero. rewrite !list_lookup_fmap.
        destruct (cumsum_from 0 row !! j) as [c|] eqn:Hc.
        -- by rewrite (cumsum_from_masked row 0 j c Hc Hzero).
        -- exfalso. apply lookup_ge_None in Hc.
           apply lookup_lt_Some in Hzero.
           rewrite cumsum_from_length in Hc. lia.
  - unfold all_ones. cbn [bind fst snd]. eexists. split; [reflexivity|].
    cbn [g_past_key_values g_decoder_attention_mask g_decoder_position_ids
         g_encoder_outputs g_encoder_attention_mask nrows ncols rows
         all_ones mbind option_bind].
    split_and!; try done.
    + lia.
    + split; cbn [rows nrows ncols].
      * by rewrite length_replicate.
      * apply Forall_replicate. by rewrite length_replicate.
    + intros i Hi. by apply lookup_replicate_2.
    + intros _. unfold broadcast_arange. cbn [nrows ncols rows].
      split_and!; [done|done|by rewrite length_replicate|].
      intros i ids [-> _]%lookup_replicate. split.
      * unfold arange. by rewrite length_map, length_seq.
      * intros j Hj. by apply arange_lookup.
Qed.

End generation_facts.

Lemma prepare_inputs_for_generation_spec_witness :
  (∃ g,
     Decode.prepare_inputs_for_generation Decode.example_model
       Decode.example_input_ids 5 None (Some Decode.example_mask) None = Ok g
     ∧ length (Decode.g_past_key_values g) = 2%nat
     ∧ Decode.rows (Decode.g_decoder_attention_mask g)
       = [[1; 1; 0; 1]; [0; 1; 1; 1]]
     ∧ Decode.rows (Decode.g_decoder_position_ids g)
       = [[0; 1; 1]; [-1; 0; 1]])
  ∧ (∃ g,
       Decode.prepare_inputs_for_generation Decode.example_model
         Decode.example_input_ids 5 None None None = Ok g
       ∧ length (Decode.g_past_key_values g) = 2%nat
       ∧ Decode.rows (Decode.g_decoder_attention_mask g)
         = [[1; 1; 1; 1]; [1; 1; 1; 1]]
       ∧ Decode.rows (Decode.g_decoder_position_ids g)
         = [[0; 1; 2]; [0; 1; 2]]).
Proof.
  split.
  - destruct (prepare_inputs_for_generation_spec Decode.example_model
                Decode.example_input_ids 5 None (Some Decode.example_mask)
                None)
      as (g & Hrun & _ & Hlayers & _).
    + lia.
    + intros mask [= <-]. split; [|cbn; lia].
      split; [reflexivity|]. by repeat constructor.
    + exists g. split; [exact Hrun|]. split; [exact Hlayers|].
      vm_compute in Hrun. injection Hrun as <-. split; reflexivity.
  - destruct (prepare_inputs_for_generation_spec Decode.example_model
                Decode.example_input_ids 5 None None None)
      as (g & Hrun & _ & Hlayers & _).
    + lia.
    + intros mask [=].
    + exists g. split; [exact Hrun|]. split; [exact Hlayers|].
      vm_compute in Hrun. injection Hrun as <-. split; reflexivity.
Defined.

(** Two calls that return nothing.  With a target length of zero the
    extended mask would have a negative width.  With a target length of
    three the extended mask has two columns, and a supplied mask of three
    columns does not fit: it is refused, not cut. *)
Lemma prepare_inputs_for_generation_refused :
  fails (Decode.prepare_inputs_for_generation Decode.example_model
           Decode.example_input_ids 0 None None None)
  ∧ Decode.prepare_inputs_for_generation Decode.example_model
      Decode.example_input_ids 3 None (Some Decode.example_mask) None
    = Raise (TypeError (MsgUpdateTooLarge [2; 3] [2; 2])).
Proof. split; [eexists|]; vm_compute; reflexivity. Qed.

(** ** Further properties of the loader *)

Section reconciliation_more.
Import Checkpoint Pretrained.
Implicit Types (init_weights random_state : gmap path tensor)
  (state : pydict) (k key : path) (ks : list path) (mm : list mismatch).

Lemma mismatch_of_Some random_state state k t :
  mismatch_of random_state state k = Some t ↔
  ∃ s r, dict_get k state = Some s ∧ random_state !! k = Some r
         ∧ shape s ≠ shape r ∧ t = (k, shape s, shape r).
Proof.
  unfold mismatch_of. split.
  - destruct (dict_get k state) as [s|]; [|done].
    destruct (random_state !! k) as [r|]; [|done].
    case_decide; [|done]. intros [= <-]. by exists s, r.
  - intros (s & r & -> & -> & Hne & ->). by rewrite decide_True.
Qed.

Lemma mismatch_of_None random_state state k :
  mismatch_of random_state state k = None ↔
  ¬ shapes_differ random_state state k.
Proof.
  split.
  - intros Hnone (s & r & Hs & Hr & Hne).
    assert (mismatch_of random_state state k = Some (k, shape s, shape r))
      as Hsome by (apply mismatch_of_Some; by exists s, r).
    congruence.
  - intros Hsame. destruct (mismatch_of random_state state k) as [t|] eqn:Ht;
      [|done].
    apply mismatch_of_Some in Ht as (s & r & Hs & Hr & Hne & _).
    destruct Hsame. by exists s, r.
Qed.

Lemma omap_ext_elem {A B : Type} (f g : A → option B) (l : list A) :
  (∀ x, x ∈ l → f x = g x) → omap f l = omap g l.
Proof.
  induction l as [|x l IH]; intros Hfg; [done|]. cbn.
  rewrite (Hfg x) by (by left). rewrite IH; [done|].
  intros y Hy. apply Hfg. by right.
Qed.

(** The permissive loop reports, in the order of the keys, one triple for
    every key whose shapes differ. *)
Lemma check_shapes_permissive_list random_state ks : ∀ state mm,
  NoDup ks →
  (∀ k, k ∈ ks → is_Some (dict_get k state)) →
  ∃ state',
    check_shapes true random_state ks state mm
    = Ok (state', mm ++ omap (mismatch_of random_state state) ks).
Proof.
  induction ks as [|key ks IH]; intros state mm Hnd Hin.
  - exists state. cbn. by rewrite app_nil_r.
  - apply NoDup_cons in Hnd as [Hfresh Hnd]. cbn [check_shapes].
    assert (omap (mismatch_of random_state state) (key :: ks)
            = option_list (mismatch_of random_state state key)
              ++ omap (mismatch_of random_state state) ks) as ->.
    { cbn. by destruct (mismatch_of random_state state key). }
    destruct (Hin key) as [s Hs]; [by left|].
    unfold mismatch_of at 1. rewrite Hs.
    destruct (random_state !! key) as [r|] eqn:Hr.
    + rewrite (getitem_Some _ _ _ Hs). cbn [bind].
      destruct (decide (shape s ≠ shape r)) as [Hne|Heq].
      * destruct (IH (setitem key r state) (mm ++ [(key, shape s, shape r)]))
          as [state' ->]; [done| |].
        { intros k Hk. rewrite dict_get_setitem. case_decide; [eauto|].
          apply Hin. by right. }
        exists state'.
        assert (omap (mismatch_of random_state (setitem key r state)) ks
                = omap (mismatch_of random_state state) ks) as ->.
        { apply omap_ext_elem. intros k Hk. unfold mismatch_of.
          rewrite dict_get_setitem, decide_False; [done|].
          by intros ->. }
        cbn. by rewrite <- app_assoc.
      * destruct (IH state mm) as [state' ->]; [done| |by exists state'].
        intros k Hk. apply Hin. by right.
    + destruct (IH state mm) as [state' ->]; [done| |by exists state'].
      intros k Hk. apply Hin. by right.
Qed.

Lemma omap_mismatch_nil random_state state ks :
  (∀ k, ¬ shapes_differ random_state state k) →
  omap (mismatch_of random_state state) ks = [].
Proof.
  intros Hsame. induction ks as [|k ks IH]; [done|]. cbn.
  by rewrite (proj2 (mismatch_of_None random_state state k) (Hsame k)).
Qed.

(** A load that goes through, with everything it logs. *)
Lemma from_pretrained_run ignore_mismatched_sizes init_weights state :
  NoDup (keys state) →
  ignore_mismatched_sizes = true
  ∨ (∀ k, ¬ shapes_differ init_weights state k) →
  ∃ new_params,
    from_pretrained ignore_mismatched_sizes init_weights state
      = Ok ({| params := new_params;
               required_params := dom init_weights |},
            report (dom init_weights ∖ list_to_set (keys state))
                   (list_to_set (keys state) ∖ dom init_weights)
                   (omap (mismatch_of init_weights state) (keys state)))
    ∧ (∀ k, new_params !! k = reconciled init_weights state k).
Proof.
  intros Hnd Hmode.
  destruct (from_pretrained_ok _ _ _ Hmode)
    as (new_params & mm & Hrun & Hget & _).
  exists new_params. split; [|exact Hget].
  assert (∃ state1,
            check_shapes ignore_mismatched_sizes init_weights (keys state)
              state []
            = Ok (state1, omap (mismatch_of init_weights state) (keys state)))
    as [state1 Hcheck].
  { destruct ignore_mismatched_sizes.
    - destruct (check_shapes_permissive_list init_weights (keys state)
                  state [] Hnd) as [state1 Hrun1].
      { intros k. by rewrite dict_get_keys. }
      by exists state1.
    - destruct Hmode as [?|Hsame]; [done|]. exists state.
      rewrite omap_mismatch_nil by done.
      apply check_shapes_strict_ok; [|by intros k _].
      intros k. by rewrite dict_get_keys. }
  unfold from_pretrained in Hrun |- *.
  cbn [params required_params new_model] in Hrun |- *.
  rewrite Hcheck in Hrun |- *. cbn [bind] in Hrun |- *.
  destruct (add_missing init_weights _ state1) as [state2|e]; [|done].
  cbn [bind] in Hrun |- *.
  destruct (remove_unexpected _ state2) as [state3|e]; [|done].
  cbn [bind] in Hrun |- *.
  injection Hrun as Hparams _. by rewrite Hparams.
Qed.

(** X1. A key that the checkpoint and the model share with the same shape
    is loaded from the checkpoint: the fresh value never replaces it. *)
Theorem from_pretrained_keeps_checkpoint_value ignore_mismatched_sizes
    init_weights state k s r :
  ignore_mismatched_sizes = true
  ∨ (∀ k, ¬ shapes_differ init_weights state k) →
  dict_get k state = Some s →
  init_weights !! k = Some r →
  shape s = shape r →
  ∃ model log,
    from_pretrained ignore_mismatched_sizes init_weights state
      = Ok (model, log)
    ∧ params model !! k = Some s.
Proof.
  intros Hmode Hs Hr Heq.
  destruct (from_pretrained_ok _ _ _ Hmode)
    as (new_params & mm & Hrun & Hget & _).
  eexists _, _. split; [exact Hrun|]. cbn [params].
  rewrite Hget. unfold reconciled. rewrite Hr, Hs.
  by rewrite decide_False by (by intros []).
Qed.

(** X2. After a load that goes through, every parameter has the shape of
    the model's own parameter at that key, whatever the checkpoint
    held. *)
Theorem from_pretrained_shapes_of_model ignore_mismatched_sizes
    init_weights state :
  ignore_mismatched_sizes = true
  ∨ (∀ k, ¬ shapes_differ init_weights state k) →
  ∃ model log,
    from_pretrained ignore_mismatched_sizes init_weights state
      = Ok (model, log)
    ∧ ∀ k t, params model !! k = Some t →
        ∃ r, init_weights !! k = Some r ∧ shape t = shape r.
Proof.
  intros Hmode.
  destruct (from_pretrained_ok _ _ _ Hmode)
    as (new_params & mm & Hrun & Hget & _).
  eexists _, _. split; [exact Hrun|]. cbn [params].
  intros k t. rewrite Hget. unfold reconciled.
  destruct (init_weights !! k) as [r|]; [|done].
  intros Ht. exists r. split; [done|].
  destruct (dict_get k state) as [s|]; [|by injection Ht as <-].
  destruct (decide (shape s ≠ shape r)) as [|Heq].
  - by injection Ht as <-.
  - injection Ht as <-. by apply dec_stable in Heq.
Qed.


Lemma report_quiet_iff (missing_keys unexpected_keys : gset path) mm :
  report missing_keys unexpected_keys mm = quiet_log
  ↔ missing_keys = ∅ ∧ unexpected_keys = ∅ ∧ mm = [].
Proof.
  unfold report, quiet_log. split.
  - intros Hlog.
    destruct (decide (0 < size unexpected_keys)%nat) as [|Hu]; [done|].
    destruct (decide (0 < size missing_keys)%nat) as [|Hm]; [done|].
    destruct mm as [|t mm]; [|done].
    split_and!; [| |done]; apply leibniz_equiv, size_empty_inv; lia.
  - intros (-> & -> & ->). done.
Qed.

Lemma report_mismatch_warning (missing_keys unexpected_keys : gset path)
    mm mm' :
  WarnMismatchedShapes mm' ∈ report missing_keys unexpected_keys mm
  ↔ mm' = mm ∧ mm ≠ [].
Proof.
  unfold report. rewrite !elem_of_app. split.
  - intros [Hin|[Hin|Hin]].
    + case_decide; apply list_elem_of_singleton in Hin; done.
    + repeat case_decide;
        first [by apply elem_of_nil in Hin
              |apply list_elem_of_singleton in Hin; done].
    + destruct mm as [|t mm]; cbn in Hin; [by apply elem_of_nil in Hin|].
      apply list_elem_of_singleton in Hin. by injection Hin as ->.
  - intros [-> Hne]. right. right.
    destruct mm as [|t mm]; [done|]. cbn. by left.
Qed.

Lemma omap_nil_inv {A B : Type} (f : A → option B) (l : list A) :
  omap f l = [] → ∀ x, x ∈ l → f x = None.
Proof.
  induction l as [|y l IH]; intros Hnil x Hx; [by apply elem_of_nil in Hx|].
  cbn in Hnil. destruct (f y) eqn:Hy; [done|].
  apply elem_of_cons in Hx as [->|Hx]; [done|by apply IH].
Qed.

Lemma keys_sets_empty init_weights state :
  dom init_weights ∖ list_to_set (keys state) = (∅ : gset path)
  ∧ list_to_set (keys state) ∖ dom init_weights = (∅ : gset path)
  ↔ ∀ k, k ∈ keys state ↔ k ∈ dom init_weights.
Proof.
  split.
  - intros [Hm Hu] k. split; intros Hk.
    + destruct (decide (k ∈ dom init_weights)) as [|Hn]; [done|].
      assert (k ∈ (list_to_set (keys state) ∖ dom init_weights : gset path))
        as Hin by (apply elem_of_difference; split;
                   [by apply elem_of_list_to_set|done]).
      rewrite Hu in Hin. by apply elem_of_empty in Hin.
    + destruct (decide (k ∈ keys state)) as [|Hn]; [done|].
      assert (k ∈ (dom init_weights ∖ list_to_set (keys state) : gset path))
        as Hin by (apply elem_of_difference; split;
                   [done|by rewrite elem_of_list_to_set]).
      rewrite Hm in Hin. by apply elem_of_empty in Hin.
  - intros Hkeys. split; apply set_eq; intros k;
      rewrite elem_of_difference, elem_of_list_to_set, Hkeys;
      split; [by intros [? ?]|by intros ?%elem_of_empty
             |by intros [? ?]|by intros ?%elem_of_empty].
Qed.

(** X4. With mismatched sizes permitted, the warning about shapes lists
    exactly the keys whose shapes differ, once each and in the
    checkpoint's order, with the checkpoint shape and the model shape; it
    is not logged when there is no such key. *)
Theorem from_pretrained_mismatch_warning init_weights state :
  NoDup (keys state) →
  ∃ model log,
    from_pretrained true init_weights state = Ok (model, log)
    ∧ ∀ mm, WarnMismatchedShapes mm ∈ log
            ↔ mm = omap (mismatch_of init_weights state) (keys state)
              ∧ mm ≠ [].
Proof.
  intros Hnd.
  destruct (from_pretrained_run true init_weights state)
    as (new_params & Hrun & _); [done|by left|].
  eexists _, _. split; [exact Hrun|].
  intros mm. rewrite report_mismatch_warning.
  split; intros [-> Hne]; by split.
Qed.

(** X5. A load that goes through logs nothing but the two informational
    records exactly when the checkpoint has the model's keys, no more and
    no fewer, and no shape differs. *)
Theorem from_pretrained_quiet_iff ignore_mismatched_sizes init_weights
    state :
  NoDup (keys state) →
  ignore_mismatched_sizes = true
  ∨ (∀ k, ¬ shapes_differ init_weights state k) →
  ∃ model log,
    from_pretrained ignore_mismatched_sizes init_weights state
      = Ok (model, log)
    ∧ (log = quiet_log
       ↔ (∀ k, k ∈ keys state ↔ k ∈ dom init_weights)
         ∧ (∀ k, ¬ shapes_differ init_weights state k)).
Proof.
  intros Hnd Hmode.
  destruct (from_pretrained_run ignore_mismatched_sizes init_weights state)
    as (new_params & Hrun & _); [done..|].
  eexists _, _. split; [exact Hrun|].
  rewrite report_quiet_iff, <- keys_sets_empty. split.
  - intros (Hm & Hu & Hnil). split; [done|].
    intros k Hdiff. pose proof Hdiff as (s & r & Hs & _).
    apply (mismatch_of_None init_weights state k); [|done].
    apply (omap_nil_inv _ _ Hnil). apply dict_get_keys. by rewrite Hs.
  - intros [[Hm Hu] Hsame]. split_and!; [done..|].
    by apply omap_mismatch_nil.
Qed.

Lemma reconciled_complete init_weights state k :
  (∀ k, k ∈ keys state ↔ k ∈ dom init_weights) →
  (∀ k, ¬ shapes_differ init_weights state k) →
  reconciled init_weights state k = dict_get k state.
Proof.
  intros Hkeys Hsame. unfold reconciled.
  destruct (dict_get k state) as [s|] eqn:Hs.
  - assert (is_Some (init_weights !! k)) as [r Hr].
    { apply elem_of_dom, Hkeys, dict_get_keys. by rewrite Hs. }
    rewrite Hr. rewrite decide_False; [done|].
    intros Hne. apply (Hsame k). by exists s, r.
  - destruct (init_weights !! k) as [r|] eqn:Hr; [|done].
    assert (is_Some (dict_get k state)) as [s' Hs'].
    { apply dict_get_keys, Hkeys, elem_of_dom. by rewrite Hr. }
    congruence.
Qed.

Lemma reconciled_dom init_weights state k :
  is_Some (reconciled init_weights state k) ↔ k ∈ dom init_weights.
Proof.
  rewrite elem_of_dom. unfold reconciled.
  destruct (init_weights !! k) as [r|]; [|done].
  destruct (dict_get k state) as [s|]; [|done].
  case_decide; split; eauto.
Qed.

Lemma reconciled_shape init_weights state k t :
  reconciled init_weights state k = Some t →
  ∃ r, init_weights !! k = Some r ∧ shape t = shape r.
Proof.
  unfold reconciled. destruct (init_weights !! k) as [r|]; [|done].
  intros Ht. exists r. split; [done|].
  destruct (dict_get k state) as [s|]; [|by injection Ht as <-].
  destruct (decide (shape s ≠ shape r)) as [|Heq].
  - by injection Ht as <-.
  - injection Ht as <-. by apply dec_stable in Heq.
Qed.

(** X3. A checkpoint that has exactly the model's keys, each with the
    model's shape, is loaded as it is, in either mode, and nothing but the
    two informational records is logged. *)
Theorem from_pretrained_complete_checkpoint ignore_mismatched_sizes
    init_weights state :
  NoDup (keys state) →
  (∀ k, k ∈ keys state ↔ k ∈ dom init_weights) →
  (∀ k, ¬ shapes_differ init_weights state k) →
  from_pretrained ignore_mismatched_sizes init_weights state
  = Ok ({| params := list_to_map state;
           required_params := dom init_weights |}, quiet_log).
Proof.
  intros Hnd Hkeys Hsame.
  destruct (from_pretrained_run ignore_mismatched_sizes init_weights state)
    as (new_params & -> & Hget); [done|by right|].
  rewrite omap_mismatch_nil by done.
  destruct (proj2 (keys_sets_empty init_weights state) Hkeys) as [-> ->].
  do 2 f_equal. f_equal. apply map_eq. intros k.
  by rewrite Hget, dict_get_list_to_map, reconciled_complete.
Qed.

(** X6. Without a shape that differs, the two modes do the same: the
    permission to ignore mismatched sizes changes neither the parameters
    nor the log. *)
Theorem from_pretrained_modes_agree init_weights state :
  NoDup (keys state) →
  (∀ k, ¬ shapes_differ init_weights state k) →
  from_pretrained true init_weights state
  = from_pretrained false init_weights state.
Proof.
  intros Hnd Hsame.
  destruct (from_pretrained_run true init_weights state)
    as (p1 & -> & Hget1); [done|by left|].
  destruct (from_pretrained_run false init_weights state)
    as (p2 & -> & Hget2); [done|by right|].
  do 3 f_equal. apply map_eq. intros k. by rewrite Hget1, Hget2.
Qed.

Lemma dict_get_without_unexpected init_weights state k :
  dict_get k (without_unexpected init_weights state)
  = if decide (k ∈ dom init_weights) then dict_get k state else None.
Proof.
  unfold without_unexpected. induction state as [|[k0 v0] state IH].
  - cbn. by case_decide.
  - rewrite filter_cons. cbn [fst].
    destruct (decide (k0 ∈ dom init_weights)) as [Hin|Hout]; cbn.
    + rewrite IH. destruct (decide (k = k0)) as [->|]; [|done].
      by rewrite decide_True.
    + rewrite IH. destruct (decide (k = k0)) as [->|]; [|done].
      by case_decide.
Qed.

(** X7. Entries of the checkpoint that the model has no parameter for
    never reach the loaded parameters: dropping them from the checkpoint
    beforehand gives the same parameters. *)
Theorem from_pretrained_ignores_unexpected ignore_mismatched_sizes
    init_weights state :
  ignore_mismatched_sizes = true
  ∨ (∀ k, ¬ shapes_differ init_weights state k) →
  ∃ model log model' log',
    from_pretrained ignore_mismatched_sizes init_weights state
      = Ok (model, log)
    ∧ from_pretrained ignore_mismatched_sizes init_weights
        (without_unexpected init_weights state) = Ok (model', log')
    ∧ params model' = params model.
Proof.
  intros Hmode.
  destruct (from_pretrained_ok _ _ _ Hmode)
    as (p1 & mm1 & Hrun1 & Hget1 & _).
  destruct (from_pretrained_ok ignore_mismatched_sizes init_weights
              (without_unexpected init_weights state))
    as (p2 & mm2 & Hrun2 & Hget2 & _).
  { destruct Hmode as [?|Hsame]; [by left|right].
    intros k (s & r & Hs & Hr & Hne). apply (Hsame k). exists s, r.
    rewrite dict_get_without_unexpected in Hs.
    by case_decide. }
  eexists _, _, _, _. split; [exact Hrun1|]. split; [exact Hrun2|].
  cbn [params]. apply map_eq. intros k. rewrite Hget1, Hget2.
  unfold reconciled. rewrite dict_get_without_unexpected.
  destruct (init_weights !! k) as [r|] eqn:Hr; [|done].
  rewrite decide_True; [done|]. apply elem_of_dom. by rewrite Hr.
Qed.

Lemma dict_get_elem_of state k v :
  NoDup (keys state) → dict_get k state = Some v ↔ (k, v) ∈ state.
Proof.
  unfold keys. induction state as [|[k0 v0] state IH]; intros Hnd.
  - cbn. split; [done|by intros ?%elem_of_nil].
  - cbn in Hnd. apply NoDup_cons in Hnd as [Hfresh Hnd]. cbn.
    rewrite elem_of_cons. destruct (decide (k = k0)) as [->|Hne].
    + split; [by intros [= ->]; left|].
      intros [[= ->]|Hin]; [done|].
      destruct Hfresh. apply list_elem_of_fmap. by exists (k0, v).
    + rewrite IH by done. split; [by right|].
      by intros [[= -> ->]|Hin].
Qed.

(** X8. The loaded parameters depend on the checkpoint as a mapping only:
    two checkpoints with the same entries in another order load the same
    parameters. *)
Theorem from_pretrained_order_irrelevant ignore_mismatched_sizes
    init_weights state state' :
  NoDup (keys state) →
  state ≡ₚ state' →
  ignore_mismatched_sizes = true
  ∨ (∀ k, ¬ shapes_differ init_weights state k) →
  ∃ model log model' log',
    from_pretrained ignore_mismatched_sizes init_weights state
      = Ok (model, log)
    ∧ from_pretrained ignore_mismatched_sizes init_weights state'
      = Ok (model', log')
    ∧ params model' = params model.
Proof.
  intros Hnd Hperm Hmode.
  assert (NoDup (keys state')) as Hnd'.
  { unfold keys in *. by rewrite <- Hperm. }
  assert (∀ k, dict_get k state' = dict_get k state) as Hsame_get.
  { intros k. apply option_eq. intros v.
    rewrite !dict_get_elem_of by done. by rewrite Hperm. }
  destruct (from_pretrained_ok _ _ _ Hmode)
    as (p1 & mm1 & Hrun1 & Hget1 & _).
  destruct (from_pretrained_ok ignore_mismatched_sizes init_weights state')
    as (p2 & mm2 & Hrun2 & Hget2 & _).
  { destruct Hmode as [?|Hsame]; [by left|right].
    intros k (s & r & Hs & Hr & Hne). apply (Hsame k). exists s, r.
    by rewrite <- Hsame_get. }
  eexists _, _, _, _. split; [exact Hrun1|]. split; [exact Hrun2|].
  cbn [params]. apply map_eq. intros k. rewrite Hget1, Hget2.
  unfold reconciled. by rewrite Hsame_get.
Qed.

(** X9. Loading is idempotent: the parameters a load returns, taken as a
    checkpoint for the same model, are loaded back unchanged and without
    a warning, in either mode. *)
Theorem from_pretrained_reload ignore_mismatched_sizes ignore_again
    init_weights state :
  ignore_mismatched_sizes = true
  ∨ (∀ k, ¬ shapes_differ init_weights state k) →
  ∃ model log,
    from_pretrained ignore_mismatched_sizes init_weights state
      = Ok (model, log)
    ∧ from_pretrained ignore_again init_weights
        (map_to_list (params model)) = Ok (model, quiet_log).
Proof.
  intros Hmode.
  destruct (from_pretrained_ok _ _ _ Hmode)
    as (p1 & mm1 & Hrun1 & Hget1 & _).
  eexists _, _. split; [exact Hrun1|]. cbn [params].
  assert (∀ k, dict_get k (map_to_list p1) = p1 !! k) as Hlist.
  { intros k. by rewrite <- dict_get_list_to_map, list_to_map_to_list. }
  assert (∀ k, k ∈ keys (map_to_list p1) ↔ k ∈ dom init_weights) as Hkeys.
  { intros k. by rewrite dict_get_keys, Hlist, Hget1, reconciled_dom. }
  assert (∀ k, ¬ shapes_differ init_weights (map_to_list p1) k) as Hsame.
  { intros k (s & r & Hs & Hr & Hne). rewrite Hlist, Hget1 in Hs.
    apply reconciled_shape in Hs as (r' & Hr' & Heq). congruence. }
  destruct (from_pretrained_run ignore_again init_weights (map_to_list p1))
    as (p2 & -> & Hget2); [apply NoDup_fst_map_to_list|by right|].
  rewrite omap_mismatch_nil by done.
  destruct (proj2 (keys_sets_empty init_weights (map_to_list p1)) Hkeys)
    as [-> ->].
  do 2 f_equal. f_equal. apply map_eq. intros k.
  by rewrite Hget2, reconciled_complete, Hlist.
Qed.

Lemma num_params_sizes (m1 m2 : model_t) :
  tensor_size <$> params m1 = tensor_size <$> params m2 →
  num_params m1 = num_params m2.
Proof.
  intros Hsizes. unfold num_params.
  assert (∀ p : gmap path tensor,
            (λ kv : path * tensor, tensor_size kv.2) <$> map_to_list p
            = (map_to_list (tensor_size <$> p)).*2) as Hview.
  { intros p. rewrite map_to_list_fmap, <- list_fmap_compose.
    apply list_fmap_ext. by intros i [k t] _. }
  by rewrite !Hview, Hsizes.
Qed.

(** X10. A load that goes through leaves [num_params] as it was: the
    model has as many parameters after loading as it was created with. *)
Theorem from_pretrained_num_params ignore_mismatched_sizes init_weights
    state :
  ignore_mismatched_sizes = true
  ∨ (∀ k, ¬ shapes_differ init_weights state k) →
  ∃ model log,
    from_pretrained ignore_mismatched_sizes init_weights state
      = Ok (model, log)
    ∧ num_params model = num_params (new_model init_weights).
Proof.
  intros Hmode.
  destruct (from_pretrained_ok _ _ _ Hmode)
    as (p1 & mm1 & Hrun1 & Hget1 & _).
  eexists _, _. split; [exact Hrun1|].
  apply num_params_sizes. cbn [params new_model].
  apply map_eq. intros k. rewrite !lookup_fmap, Hget1.
  destruct (reconciled init_weights state k) as [t|] eqn:Ht.
  - apply reconciled_shape in Ht as (r & -> & Heq). cbn.
    unfold tensor_size. by rewrite Heq.
  - destruct (init_weights !! k) as [r|] eqn:Hr; [|done].
    assert (is_Some (reconciled init_weights state k)) as [t' Ht'].
    { apply reconciled_dom, elem_of_dom. by rewrite Hr. }
    congruence.
Qed.

End reconciliation_more.

Lemma no_mismatch_by_list init_weights state :
  omap (Pretrained.mismatch_of init_weights state) (Checkpoint.keys state) = [] →
  ∀ k, ¬ Checkpoint.shapes_differ init_weights state k.
Proof.
  intros Hnil k Hdiff. pose proof Hdiff as (s & r & Hs & _).
  apply (mismatch_of_None init_weights state k); [|done].
  apply (omap_nil_inv _ _ Hnil). apply dict_get_keys. by rewrite Hs.
Qed.

Lemma example_states_nodup :
  NoDup (Checkpoint.keys Checkpoint.example_state)
  ∧ NoDup (Checkpoint.keys Pretrained.example_complete_state).
Proof. split; refine (bool_decide_unpack _ _); vm_compute; exact I. Qed.

Lemma example_complete_state_keys k :
  k ∈ Checkpoint.keys Pretrained.example_complete_state
  ↔ k ∈ dom Checkpoint.example_weights.
Proof.
  assert (dom Checkpoint.example_weights
          = list_to_set (Checkpoint.keys Pretrained.example_complete_state))
    as -> by (vm_compute; reflexivity).
  by rewrite elem_of_list_to_set.
Qed.

Lemma from_pretrained_keeps_checkpoint_value_witness :
  ∃ model log,
    Checkpoint.from_pretrained false Checkpoint.example_weights
      Pretrained.example_complete_state = Ok (model, log)
    ∧ Checkpoint.params model !! ["lm_head"; "kernel"]
      = Some {| shape := [2; 3]; data := [31; 32; 33; 34; 35; 36] |}.
Proof.
  apply (from_pretrained_keeps_checkpoint_value false
           Checkpoint.example_weights Pretrained.example_complete_state
           ["lm_head"; "kernel"]
           {| shape := [2; 3]; data := [31; 32; 33; 34; 35; 36] |}
           {| shape := [2; 3]; data := [1; 2; 3; 4; 5; 6] |}).
  - right. apply no_mismatch_by_list. vm_compute. reflexivity.
  - reflexivity.
  - vm_compute. reflexivity.
  - reflexivity.
Defined.

Lemma from_pretrained_shapes_of_model_witness :
  ∃ model log,
    Checkpoint.from_pretrained true Checkpoint.example_weights
      Checkpoint.example_state = Ok (model, log)
    ∧ ∀ k t, Checkpoint.params model !! k = Some t →
        ∃ r, Checkpoint.example_weights !! k = Some r ∧ shape t = shape r.
Proof.
  apply (from_pretrained_shapes_of_model true Checkpoint.example_weights
           Checkpoint.example_state).
  left. reflexivity.
Defined.

Lemma from_pretrained_complete_checkpoint_witness :
  Checkpoint.from_pretrained false Checkpoint.example_weights
    Pretrained.example_complete_state
  = Ok ({| Checkpoint.params := list_to_map Pretrained.example_complete_state;
           Checkpoint.required_params := dom Checkpoint.example_weights |},
        Pretrained.quiet_log).
Proof.
  apply (from_pretrained_complete_checkpoint false Checkpoint.example_weights
           Pretrained.example_complete_state).
  - apply example_states_nodup.
  - apply example_complete_state_keys.
  - apply no_mismatch_by_list. vm_compute. reflexivity.
Defined.

Lemma from_pretrained_mismatch_warning_witness :
  ∃ model log,
    Checkpoint.from_pretrained true Checkpoint.example_weights
      Checkpoint.example_state = Ok (model, log)
    ∧ ∀ mm, Checkpoint.WarnMismatchedShapes mm ∈ log
            ↔ mm = omap (Pretrained.mismatch_of Checkpoint.example_weights
                           Checkpoint.example_state)
                     (Checkpoint.keys Checkpoint.example_state)
              ∧ mm ≠ [].
Proof.
  apply (from_pretrained_mismatch_warning Checkpoint.example_weights
           Checkpoint.example_state).
  apply example_states_nodup.
Defined.

Lemma from_pretrained_quiet_iff_witness :
  ∃ model log,
    Checkpoint.from_pretrained true Checkpoint.example_weights
      Checkpoint.example_state = Ok (model, log)
    ∧ (log = Pretrained.quiet_log
       ↔ (∀ k, k ∈ Checkpoint.keys Checkpoint.example_state
               ↔ k ∈ dom Checkpoint.example_weights)
         ∧ (∀ k, ¬ Checkpoint.shapes_differ Checkpoint.example_weights
                     Checkpoint.example_state k)).
Proof.
  apply (from_pretrained_quiet_iff true Checkpoint.example_weights
           Checkpoint.example_state).
  - apply example_states_nodup.
  - left. reflexivity.
Defined.

Lemma from_pretrained_modes_agree_witness :
  Checkpoint.from_pretrained true Checkpoint.example_weights
    Pretrained.example_complete_state
  = Checkpoint.from_pretrained false Checkpoint.example_weights
      Pretrained.example_complete_state.
Proof.
  apply (from_pretrained_modes_agree Checkpoint.example_weights
           Pretrained.example_complete_state).
  - apply example_states_nodup.
  - apply no_mismatch_by_list. vm_compute. reflexivity.
Defined.

Lemma from_pretrained_ignores_unexpected_witness :
  ∃ model log model' log',
    Checkpoint.from_pretrained true Checkpoint.example_weights
      Checkpoint.example_state = Ok (model, log)
    ∧ Checkpoint.from_pretrained true Checkpoint.example_weights
        (Pretrained.without_unexpected Checkpoint.example_weights
           Checkpoint.example_state) = Ok (model', log')
    ∧ Checkpoint.params model' = Checkpoint.params model.
Proof.
  apply (from_pretrained_ignores_unexpected true Checkpoint.example_weights
           Checkpoint.example_state).
  left. reflexivity.
Defined.

Lemma from_pretrained_order_irrelevant_witness :
  ∃ model log model' log',
    Checkpoint.from_pretrained true Checkpoint.example_weights
      Checkpoint.example_state = Ok (model, log)
    ∧ Checkpoint.from_pretrained true Checkpoint.example_weights
        (reverse Checkpoint.example_state) = Ok (model', log')
    ∧ Checkpoint.params model' = Checkpoint.params model.
Proof.
  apply (from_pretrained_order_irrelevant true Checkpoint.example_weights
           Checkpoint.example_state (reverse Checkpoint.example_state)).
  - apply example_states_nodup.
  - symmetry. apply reverse_Permutation.
  - left. reflexivity.
Defined.

Lemma from_pretrained_reload_witness :
  ∃ model log,
    Checkpoint.from_pretrained true Checkpoint.example_weights
      Checkpoint.example_state = Ok (model, log)
    ∧ Checkpoint.from_pretrained false Checkpoint.example_weights
        (map_to_list (Checkpoint.params model))
      = Ok (model, Pretrained.quiet_log).
Proof.
  apply (from_pretrained_reload true false Checkpoint.example_weights
           Checkpoint.example_state).
  left. reflexivity.
Defined.

Lemma from_pretrained_num_params_witness :
  ∃ model log,
    Checkpoint.from_pretrained true Checkpoint.example_weights
      Checkpoint.example_state = Ok (model, log)
    ∧ Pretrained.num_params model
      = Pretrained.num_params (Checkpoint.new_model Checkpoint.example_weights).
Proof.
  apply (from_pretrained_num_params true Checkpoint.example_weights
           Checkpoint.example_state).
  left. reflexivity.
Defined.

(** ** Further properties of [decode] *)

Section decode_more.
Import Decode.
Variable self : DalleBart.
Variable decoder_module : apply_inputs → decoder_outputs_t * cache.
Variables (dense_apply : tensor → tensor → tensor)
  (transpose : tensor → tensor).
Implicit Types (decoder_input_ids : array2)
  (encoder_outputs : encoder_outputs_t)
  (encoder_attention_mask decoder_attention_mask
     decoder_position_ids : option array2)
  (past_key_values : option cache)
  (output_attentions output_hidden_states return_dict : option bool)
  (train : bool) (params : option (gmap path tensor))
  (dropout_rng : option tensor).

(** The arguments [decode] builds when the masks and the position ids are
    all supplied. *)
Lemma decode_inputs_supplied decoder_input_ids encoder_outputs
    (encoder_mask decoder_mask position_ids : array2) past_key_values
    output_attentions output_hidden_states return_dict train params
    dropout_rng :
  decode_inputs self decoder_input_ids encoder_outputs (Some encoder_mask)
    (Some decoder_mask) (Some position_ids) past_key_values
    output_attentions output_hidden_states return_dict train params
    dropout_rng
  = Ok {| in_params := params_or_self params self;
          in_cache := if truthy past_key_values then past_key_values
                      else None;
          in_decoder_input_ids := decoder_input_ids;
          in_decoder_attention_mask := decoder_mask;
          in_decoder_position_ids := position_ids;
          in_encoder_hidden_states := encoder_last_hidden_state encoder_outputs;
          in_encoder_attention_mask := encoder_mask;
          in_output_attentions :=
            or_default output_attentions (config_output_attentions self);
          in_output_hidden_states :=
            or_default output_hidden_states (config_output_hidden_states self);
          in_return_dict := or_default return_dict (config_return_dict self);
          in_deterministic := negb train;
          in_rngs := dropout_rng |}.
Proof. reflexivity. Qed.

(** X12. A decoding step with a cache hands the cache to the decoder and
    returns the cache as the decoder leaves it, never the one it was
    given: in the output record when [return_dict] holds, and as the
    second component of the tuple otherwise. *)
Theorem decode_returns_updated_cache decoder_input_ids encoder_outputs
    (encoder_mask decoder_mask position_ids : array2)
    (first_layer : string * layer_cache) (other_layers : cache)
    output_attentions output_hidden_states return_dict train params
    dropout_rng (kernel : tensor) :
  tie_word_embeddings (config self) = false →
  params_or_self params self !! ["lm_head"; "kernel"] = Some kernel →
  let past_key_values := first_layer :: other_layers in
  let inputs :=
    {| in_params := params_or_self params self;
       in_cache := Some past_key_values;
       in_decoder_input_ids := decoder_input_ids;
       in_decoder_attention_mask := decoder_mask;
       in_decoder_position_ids := position_ids;
       in_encoder_hidden_states := encoder_last_hidden_state encoder_outputs;
       in_encoder_attention_mask := encoder_mask;
       in_output_attentions :=
         or_default output_attentions (config_output_attentions self);
       in_output_hidden_states :=
         or_default output_hidden_states (config_output_hidden_states self);
       in_return_dict := or_default return_dict (config_return_dict self);
       in_deterministic := negb train;
       in_rngs := dropout_rng |} in
  let outputs := (decoder_module inputs).1 in
  let updated := (decoder_module inputs).2 in
  let logits := dense_apply kernel (last_hidden_state outputs) in
  decode self decoder_module dense_apply transpose decoder_input_ids
    encoder_outputs (Some encoder_mask) (Some decoder_mask)
    (Some position_ids) (Some past_key_values) output_attentions
    output_hidden_states return_dict train params dropout_rng
  = Ok (if or_default return_dict (config_return_dict self)
        then CausalLMOutput logits (hidden_states outputs)
               (attentions outputs) (cross_attentions outputs)
               (Some updated)
        else TupleOutput logits (Some updated) (tail_outputs outputs)).
Proof.
  intros Htie Hkernel. cbn zeta. unfold decode.
  rewrite decode_inputs_supplied. cbn [bind truthy].
  unfold decoder_forward. cbn [in_params in_return_dict].
  destruct (decoder_module _) as [outputs updated]. cbn [fst snd].
  unfold Bart.lm_logits. rewrite Htie, Hkernel. cbn [bind decode_result truthy].
  by destruct (or_default return_dict (config_return_dict self)).
Qed.

(** X13. Without a cache the decoder is applied without one and the
    output carries none. *)
Theorem decode_without_cache_returns_none decoder_input_ids encoder_outputs
    (encoder_mask decoder_mask position_ids : array2)
    output_attentions output_hidden_states return_dict train params
    dropout_rng (kernel : tensor) :
  tie_word_embeddings (config self) = false →
  params_or_self params self !! ["lm_head"; "kernel"] = Some kernel →
  let inputs :=
    {| in_params := params_or_self params self;
       in_cache := None;
       in_decoder_input_ids := decoder_input_ids;
       in_decoder_attention_mask := decoder_mask;
       in_decoder_position_ids := position_ids;
       in_encoder_hidden_states := encoder_last_hidden_state encoder_outputs;
       in_encoder_attention_mask := encoder_mask;
       in_output_attentions :=
         or_default output_attentions (config_output_attentions self);
       in_output_hidden_states :=
         or_default output_hidden_states (config_output_hidden_states self);
       in_return_dict := or_default return_dict (config_return_dict self);
       in_deterministic := negb train;
       in_rngs := dropout_rng |} in
  let outputs := (decoder_module inputs).1 in
  let logits := dense_apply kernel (last_hidden_state outputs) in
  decode self decoder_module dense_apply transpose decoder_input_ids
    encoder_outputs (Some encoder_mask) (Some decoder_mask)
    (Some position_ids) None output_attentions
    output_hidden_states return_dict train params dropout_rng
  = Ok (if or_default return_dict (config_return_dict self)
        then CausalLMOutput logits (hidden_states outputs)
               (attentions outputs) (cross_attentions outputs) None
        else TupleOutput logits None (tail_outputs outputs)).
Proof.
  intros Htie Hkernel. cbn zeta. unfold decode.
  rewrite decode_inputs_supplied. cbn [bind truthy].
  unfold decoder_forward. cbn [in_params in_return_dict].
  destruct (decoder_module _) as [outputs updated]. cbn [fst snd].
  unfold Bart.lm_logits. rewrite Htie, Hkernel. cbn [bind decode_result].
  by destruct (or_default return_dict (config_return_dict self)).
Qed.

(** X14. With tied word embeddings [decode] never returns, whatever it is
    called with, as long as the parameters are those of the module tree:
    either the arguments are refused or the projection raises. *)
Theorem decode_tied_never_returns m decoder_input_ids encoder_outputs
    encoder_attention_mask decoder_attention_mask decoder_position_ids
    past_key_values output_attentions output_hidden_states return_dict
    train params dropout_rng (ACT2FN : list string) :
  Bart.FlaxBartForConditionalGenerationModule_setup ACT2FN (config self)
    = Ok m →
  tie_word_embeddings (config self) = true →
  dom (params_or_self params self)
    = list_to_set (Bart.generation_module_params m).*1 →
  fails (decode self decoder_module dense_apply transpose decoder_input_ids
           encoder_outputs encoder_attention_mask decoder_attention_mask
           decoder_position_ids past_key_values output_attentions
           output_hidden_states return_dict train params dropout_rng).
Proof.
  intros _ Htie Hdom. unfold decode.
  destruct (decode_inputs self decoder_input_ids encoder_outputs
              encoder_attention_mask decoder_attention_mask
              decoder_position_ids past_key_values output_attentions
              output_hidden_states return_dict train params dropout_rng)
    as [inputs|e] eqn:Hinputs; [|apply fails_Raise].
  assert (in_params inputs = params_or_self params self) as Hparams.
  { unfold decode_inputs in Hinputs. bind_inv Hinputs.
    by injection Hinputs as <-. }
  cbn [bind]. unfold decoder_forward.
  destruct (decoder_module inputs) as [outputs updated].
  unfold Bart.lm_logits. rewrite Htie, Hparams. cbn [Bart.getitems].
  assert (Bart.has_key (params_or_self params self) ["model"] "shared" = false)
    as ->; [|apply fails_Raise].
  unfold Bart.has_key. apply bool_decide_eq_false.
  intros (k & Hk & Hpre). rewrite Hdom in Hk.
  apply elem_of_list_to_set, generation_module_params_scope in Hk.
  destruct Hpre as [rest Hrest]. cbn in Hrest.
  destruct Hk as [[k' ->]|[[k' ->]|[k' ->]]]; discriminate.
Qed.

End decode_more.

(** ** Further properties of [prepare_inputs_for_generation] *)

Section generation_more.
Import Decode Generation.
Implicit Types (row : list Z) (mask : array2).

Lemma unmasked_upto_ones (n j : nat) :
  (j < n)%nat → unmasked_upto j (replicate n 1) = Z.of_nat j + 1.
Proof.
  unfold unmasked_upto. revert j. induction n as [|n IH]; intros j Hj; [lia|].
  destruct j as [|j]; cbn [replicate take foldr].
  - destruct n; cbn; lia.
  - rewrite IH by lia. lia.
Qed.

Lemma cumsum_minus_one_ones (b n : nat) :
  Z.of_nat n < 2 ^ 31 →
  cumsum_minus_one (all_ones b n) = broadcast_arange b n.
Proof.
  intros Hn. unfold cumsum_minus_one, all_ones, broadcast_arange. cbn.
  f_equal. rewrite fmap_replicate. f_equal.
  apply list_eq. intros j. unfold arange.
  rewrite !list_lookup_fmap.
  destruct (decide (j < n)%nat) as [Hj|Hj].
  - rewrite (cumsum_from_counts (replicate n 1) 0 j).
    + rewrite lookup_seq_lt by done. cbn.
      rewrite unmasked_upto_ones by done. f_equal.
      rewrite wrap32_small; lia.
    + apply Forall_replicate. by right.
    + done.
    + rewrite length_replicate. lia.
    + by rewrite length_replicate.
  - rewrite (lookup_ge_None_2 (cumsum_from 0 (replicate n 1)))
      by (rewrite cumsum_from_length, length_replicate; lia).
    by rewrite lookup_seq_ge by lia.
Qed.

Lemma update_rows_ones (b w n : nat) :
  (n ≤ w)%nat →
  update_rows (replicate b (replicate w 1)) (replicate b (replicate n 1))
  = replicate b (replicate w 1).
Proof.
  intros Hn. induction b as [|b IH]; [done|]. cbn. rewrite IH. f_equal.
  rewrite length_replicate, drop_replicate, <- replicate_add. f_equal. lia.
Qed.

(** X15. A decoder mask without any masked position changes nothing: the
    bootstrap returns what it returns when no mask is supplied. *)
Theorem prepare_inputs_all_ones_mask (self : DalleBart)
    (decoder_input_ids : array2) (max_length : Z)
    (attention_mask : option array2)
    (encoder_outputs : option encoder_outputs_t) :
  Z.of_nat (ncols decoder_input_ids) ≤ max_length - 1 →
  Z.of_nat (ncols decoder_input_ids) < 2 ^ 31 →
  prepare_inputs_for_generation self decoder_input_ids max_length
    attention_mask
    (Some (all_ones (nrows decoder_input_ids) (ncols decoder_input_ids)))
    encoder_outputs
  = prepare_inputs_for_generation self decoder_input_ids max_length
      attention_mask None encoder_outputs.
Proof.
  intros Hfit Hshort. unfold prepare_inputs_for_generation.
  assert (ones (Z.of_nat (nrows decoder_input_ids)) (max_length - 1)
          = Ok (all_ones (nrows decoder_input_ids)
                  (Z.to_nat (max_length - 1)))) as ->.
  { unfold ones, all_ones. rewrite !decide_False by lia.
    by rewrite Nat2Z.id. }
  cbn [bind]. rewrite cumsum_minus_one_ones by done.
  unfold dynamic_update_slice, all_ones. cbn [nrows ncols rows].
  rewrite decide_True by lia. cbn [bind fst snd].
  by rewrite update_rows_ones by lia.
Qed.

(** X16. With a mask of zeros and ones, the position id of a position is
    the number of unmasked positions up to and including it, minus one;
    in particular masked positions in front get -1 and the first unmasked
    position gets 0. *)
Theorem prepare_inputs_position_counts (self : DalleBart)
    (decoder_input_ids : array2) (max_length : Z)
    (attention_mask : option array2) (mask : array2)
    (encoder_outputs : option encoder_outputs_t) :
  1 ≤ max_length →
  mask_fits decoder_input_ids max_length (Some mask) →
  Forall (λ row, binary_row row ∧ Z.of_nat (length row) < 2 ^ 31)
    (rows mask) →
  ∃ g,
    prepare_inputs_for_generation self decoder_input_ids max_length
      attention_mask (Some mask) encoder_outputs = Ok g
    ∧ ∀ i row j, rows mask !! i = Some row → (j < length row)%nat →
        rows (g_decoder_position_ids g) !! i ≫= (λ ids, ids !! j)
        = Some (unmasked_upto j row - 1).
Proof.
  intros Hlen Hfit Hrows. destruct (Hfit mask eq_refl) as [Hb Hw].
  unfold prepare_inputs_for_generation.
  assert (ones (Z.of_nat (nrows decoder_input_ids)) (max_length - 1)
          = Ok (all_ones (nrows decoder_input_ids)
                  (Z.to_nat (max_length - 1)))) as ->.
  { unfold ones, all_ones. rewrite !decide_False by lia.
    by rewrite Nat2Z.id. }
  cbn [bind]. unfold dynamic_update_slice, all_ones. cbn [nrows ncols rows].
  rewrite decide_True by lia. cbn [bind fst snd].
  eexists. split; [reflexivity|]. cbn [g_decoder_position_ids].
  intros i row j Hrow Hj. unfold cumsum_minus_one. cbn [rows].
  rewrite list_lookup_fmap, Hrow. cbn [fmap option_fmap option_map mbind
    option_bind].
  rewrite list_lookup_fmap.
  eapply Forall_lookup_1 in Hrows as [Hbin Hshort]; [|exact Hrow].
  rewrite (cumsum_from_counts row 0 j) by (try done; lia). cbn.
  f_equal. pose proof (wrap32_small (unmasked_upto j row - 1)) as Hsmall.
  assert (0 ≤ unmasked_upto j row ≤ Z.of_nat (length row)) as Hbound.
  { unfold unmasked_upto. clear -Hbin. revert j.
    induction row as [|x row IH]; intros j; [cbn; lia|].
    apply Forall_cons in Hbin as [Hx Hbin]. cbn [take foldr length].
    destruct j as [|j].
    - destruct row; cbn; lia.
    - specialize (IH Hbin j). destruct row as [|y row]; [cbn in *; lia|].
      cbn [take] in IH |- *. cbn [length] in IH |- *. lia. }
  rewrite Z.add_0_l. apply Hsmall. lia.
Qed.

(** X17. The bootstrap refuses what does not fit: a target length below
    one, or a supplied mask with more rows than the batch or more columns
    than the extended mask, makes it fail; the mask is not cut. *)
Theorem prepare_inputs_refuses (self : DalleBart)
    (decoder_input_ids : array2) (max_length : Z)
    (attention_mask decoder_attention_mask : option array2)
    (encoder_outputs : option encoder_outputs_t) :
  max_length < 1
  ∨ (∃ mask, decoder_attention_mask = Some mask
       ∧ ((nrows decoder_input_ids < nrows mask)%nat
          ∨ max_length - 1 < Z.of_nat (ncols mask))) →
  fails (prepare_inputs_for_generation self decoder_input_ids max_length
           attention_mask decoder_attention_mask encoder_outputs).
Proof.
  intros Hbad. unfold prepare_inputs_for_generation, ones.
  rewrite decide_False by lia.
  destruct (decide (max_length - 1 < 0)) as [Hneg|Hpos]; cbn [bind];
    [apply fails_Raise|].
  destruct Hbad as [Hlen|(mask & -> & Hlarge)]; [lia|]. cbn [bind].
  unfold dynamic_update_slice. cbn [nrows ncols]. rewrite !Nat2Z.id.
  rewrite decide_False by lia. apply fails_Raise.
Qed.

End generation_more.

Lemma prepare_inputs_fits_succeeds (self : Decode.DalleBart)
    (decoder_input_ids : Decode.array2) (max_length : Z)
    (attention_mask decoder_attention_mask : option Decode.array2)
    (encoder_outputs : option Decode.encoder_outputs_t) :
  1 ≤ max_length →
  Generation.mask_fits decoder_input_ids max_length decoder_attention_mask →
  succeeds (Decode.prepare_inputs_for_generation self decoder_input_ids
              max_length attention_mask decoder_attention_mask
              encoder_outputs).
Proof.
  intros Hlen Hfit.
  unfold Decode.prepare_inputs_for_generation, Decode.ones.
  rewrite !decide_False by lia. cbn [bind].
  destruct decoder_attention_mask as [mask|]; cbn [bind];
    [|eexists; reflexivity].
  destruct (Hfit mask eq_refl) as [Hb Hw].
  unfold Decode.dynamic_update_slice. cbn [Decode.nrows Decode.ncols].
  rewrite decide_True by lia. eexists. reflexivity.
Qed.

(** X18. What the bootstrap returns meets the contract of [decode]: fed
    back with the encoder mask, it is accepted, the cache is handed to the
    decoder and the mask and the position ids arrive as they were
    built. *)
Theorem prepare_then_decode (self : Decode.DalleBart)
    (decoder_input_ids step_input_ids : Decode.array2) (max_length : Z)
    (encoder_mask : Decode.array2)
    (decoder_attention_mask : option Decode.array2)
    (encoder_outputs : Decode.encoder_outputs_t)
    (output_attentions output_hidden_states return_dict : option bool)
    (train : bool) (params : option (gmap path tensor))
    (dropout_rng : option tensor) :
  1 ≤ max_length →
  Generation.mask_fits decoder_input_ids max_length decoder_attention_mask →
  1 ≤ decoder_layers (Decode.config self) →
  ∃ g inputs,
    Decode.prepare_inputs_for_generation self decoder_input_ids max_length
      (Some encoder_mask) decoder_attention_mask (Some encoder_outputs)
    = Ok g
    ∧ Decode.decode_inputs self step_input_ids encoder_outputs
        (Decode.g_encoder_attention_mask g)
        (Some (Decode.g_decoder_attention_mask g))
        (Some (Decode.g_decoder_position_ids g))
        (Some (Decode.g_past_key_values g))
        output_attentions output_hidden_states return_dict train params
        dropout_rng = Ok inputs
    ∧ Decode.in_cache inputs = Some (Decode.g_past_key_values g)
    ∧ Decode.in_decoder_attention_mask inputs
      = Decode.g_decoder_attention_mask g
    ∧ Decode.in_decoder_position_ids inputs
      = Decode.g_decoder_position_ids g
    ∧ Decode.in_encoder_attention_mask inputs = encoder_mask.
Proof.
  intros Hlen Hfit Hlayers.
  destruct (prepare_inputs_fits_succeeds self decoder_input_ids
              max_length (Some encoder_mask) decoder_attention_mask
              (Some encoder_outputs)) as [g Hg]; [done..|].
  assert (Decode.g_encoder_attention_mask g = Some encoder_mask
          ∧ ∃ first_layer other_layers,
              Decode.g_past_key_values g = first_layer :: other_layers)
    as (Hmask & first_layer & other_layers & Hcache).
  { unfold Decode.prepare_inputs_for_generation in Hg. bind_inv Hg.
    injection Hg as <-. cbn. split; [done|].
    unfold Decode.init_cache, Bart.range.
    destruct (Z.to_nat (decoder_layers (Decode.config self))) as [|n] eqn:Hn;
      [lia|].
    cbn. eauto. }
  exists g. eexists. split; [done|]. rewrite Hmask, Hcache.
  split; [reflexivity|]. by cbn.
Qed.

Lemma prepare_then_decode_witness :
  ∃ g inputs,
    Decode.prepare_inputs_for_generation Decode.example_model
      Decode.example_input_ids 5
      (Some (Decode.all_ones 2 4)) (Some Decode.example_mask)
      (Some Decode.example_encoder_outputs) = Ok g
    ∧ Decode.decode_inputs Decode.example_model Decode.example_input_ids
        Decode.example_encoder_outputs
        (Decode.g_encoder_attention_mask g)
        (Some (Decode.g_decoder_attention_mask g))
        (Some (Decode.g_decoder_position_ids g))
        (Some (Decode.g_past_key_values g))
        None None None false None None = Ok inputs
    ∧ Decode.in_cache inputs = Some (Decode.g_past_key_values g)
    ∧ Decode.in_decoder_attention_mask inputs
      = Decode.g_decoder_attention_mask g
    ∧ Decode.in_decoder_position_ids inputs
      = Decode.g_decoder_position_ids g
    ∧ Decode.in_encoder_attention_mask inputs = Decode.all_ones 2 4.
Proof.
  apply (prepare_then_decode Decode.example_model Decode.example_input_ids
           Decode.example_input_ids 5 (Decode.all_ones 2 4)
           (Some Decode.example_mask) Decode.example_encoder_outputs
           None None None false None None).
  - lia.
  - intros mask [= <-]. cbn. lia.
  - cbn. lia.
Defined.

(** ** Further properties of the module tree *)

Section module_tree_more.
Import Bart.
Variable ACT2FN : list string.
Variable config : DalleBartConfig.

Lemma build_layers_succeeds_iff {L : Type} (layer_setup : res L)
    (idx : list nat) :
  succeeds (build_layers layer_setup idx)
  ↔ idx = [] ∨ succeeds layer_setup.
Proof.
  split.
  - destruct idx as [|i idx]; [by left|]. intros [ls Hls]. right.
    cbn in Hls. bind_inv Hls. by eexists.
  - intros [->|Hl]; [apply succeeds_Ok|by apply build_layers_succeeds].
Qed.

Lemma build_layers_entries {L : Type} (layer_setup : res L) (idx : list nat)
    ls :
  build_layers layer_setup idx = Ok ls →
  ls.*1 = pretty <$> idx ∧ Forall (λ nl, layer_setup = Ok nl.2) ls.
Proof.
  revert ls. induction idx as [|i idx IH]; intros ls Hls; cbn in Hls.
  - by injection Hls as <-.
  - bind_inv Hls. injection Hls as <-.
    destruct (IH _ Hstep0) as [Hnames Hall]. cbn. split.
    + by rewrite Hnames.
    + by apply Forall_cons.
Qed.

Lemma range_nil (n : Z) : range n = [] ↔ n ≤ 0.
Proof.
  unfold range. split.
  - intros Hnil. destruct (Z.to_nat n) eqn:Hn; [lia|done].
  - intros Hn. by replace (Z.to_nat n) with 0%nat by lia.
Qed.

Lemma activation_Ok (name fn : string) :
  activation ACT2FN name = Ok fn ↔ name ∈ ACT2FN ∧ fn = name.
Proof.
  unfold activation. destruct (decide (name ∈ ACT2FN)); split.
  - by intros [= <-].
  - by intros [_ ->].
  - discriminate.
  - by intros [? _].
Qed.

Lemma embed_scale_of_Ok scale :
  embed_scale_of config = Ok scale →
  scale_embedding config = true → 0 ≤ d_model config.
Proof.
  unfold embed_scale_of. intros Hscale Hon. rewrite Hon in Hscale.
  destruct (decide (d_model config < 0)); [discriminate|lia].
Qed.

Lemma encoder_layer_setup_requirements :
  succeeds (FlaxBartEncoderLayer_setup ACT2FN config) →
  Attention.exactly_divisible (d_model config)
    (encoder_attention_heads config)
  ∧ activation_function config ∈ ACT2FN.
Proof.
  unfold FlaxBartEncoderLayer_setup. intros [l Hl]. bind_inv Hl.
  apply activation_Ok in Hstep0 as [Hact _].
  split; [by eapply setup_ok_divisible|done].
Qed.

Lemma decoder_layer_setup_requirements :
  succeeds (FlaxBartDecoderLayer_setup ACT2FN config) →
  Attention.exactly_divisible (d_model config)
    (decoder_attention_heads config)
  ∧ activation_function config ∈ ACT2FN
  ∧ 0 ≤ image_length config.
Proof.
  unfold FlaxBartDecoderLayer_setup. intros [l Hl]. bind_inv Hl.
  apply activation_Ok in Hstep0 as [Hact _].
  split_and!; [by eapply setup_ok_divisible|done|].
  by apply setup_ok_mask in Hstep as [|].
Qed.

(** X19. What a module tree that is built tells about its configuration:
    the embedding width is not negative when the embeddings are scaled
    by its square root; and wherever a layer is built, in the encoder or
    in the decoder, the width is divisible by the head count and the
    activation function is one of the table, with an [image_length] that
    is not negative for a decoder layer.  Any other configuration is
    refused while the tree is set up. *)
Theorem generation_module_setup_requirements :
  succeeds (FlaxBartForConditionalGenerationModule_setup ACT2FN config) →
  (scale_embedding config = true → 0 ≤ d_model config)
  ∧ (0 < encoder_layers config →
     Attention.exactly_divisible (d_model config)
       (encoder_attention_heads config)
     ∧ activation_function config ∈ ACT2FN)
  ∧ (0 < decoder_layers config →
     Attention.exactly_divisible (d_model config)
       (decoder_attention_heads config)
     ∧ activation_function config ∈ ACT2FN
     ∧ 0 ≤ image_length config).
Proof.
  unfold FlaxBartForConditionalGenerationModule_setup, FlaxBartModule_setup,
    FlaxBartEncoder_setup, FlaxBartDecoder_setup,
    FlaxBartEncoderLayerCollection_setup, FlaxBartDecoderLayerCollection_setup.
  intros [m Hm].
  repeat match goal with
         | H : bind _ _ = Ok _ |- _ => apply bind_Ok in H as (? & ? & ?)
         end.
  split_and!.
  - by eapply embed_scale_of_Ok.
  - intros Hlayers. apply encoder_layer_setup_requirements.
    assert (succeeds (build_layers (FlaxBartEncoderLayer_setup ACT2FN config)
                        (range (encoder_layers config)))) as Hbuilt
      by (eexists; eassumption).
    apply build_layers_succeeds_iff in Hbuilt as [Hnil%range_nil|]; [lia|done].
  - intros Hlayers. apply decoder_layer_setup_requirements.
    assert (succeeds (build_layers (FlaxBartDecoderLayer_setup ACT2FN config)
                        (range (decoder_layers config)))) as Hbuilt
      by (eexists; eassumption).
    apply build_layers_succeeds_iff in Hbuilt as [Hnil%range_nil|]; [lia|done].
Qed.

(** X20. A built tree has as many encoder and decoder layers as the
    configuration asks for (none for a count that is not positive), named
    0, 1, ... in order, no two alike. *)
Theorem layer_collections_names m :
  FlaxBartForConditionalGenerationModule_setup ACT2FN config = Ok m →
  let encoder_names := (layers (enc_layers (encoder (model m)))).*1 in
  let decoder_names := (layers (dec_layers (decoder (model m)))).*1 in
  encoder_names = pretty <$> seq 0 (Z.to_nat (encoder_layers config))
  ∧ decoder_names = pretty <$> seq 0 (Z.to_nat (decoder_layers config))
  ∧ length encoder_names = Z.to_nat (encoder_layers config)
  ∧ length decoder_names = Z.to_nat (decoder_layers config)
  ∧ NoDup encoder_names ∧ NoDup decoder_names.
Proof.
  intros Hm. cbn zeta.
  unfold FlaxBartForConditionalGenerationModule_setup, FlaxBartModule_setup,
    FlaxBartEncoder_setup, FlaxBartDecoder_setup,
    FlaxBartEncoderLayerCollection_setup,
    FlaxBartDecoderLayerCollection_setup in Hm.
  destruct (embed_scale_of config) as [scale|e]; [|done]. cbn [bind] in Hm.
  destruct (build_layers (FlaxBartEncoderLayer_setup ACT2FN config)
              (range (encoder_layers config))) as [els|e] eqn:Hels;
    [|done].
  destruct (build_layers (FlaxBartDecoderLayer_setup ACT2FN config)
              (range (decoder_layers config))) as [dls|e] eqn:Hdls;
    [|done].
  cbn in Hm. injection Hm as <-.
  apply build_layers_entries in Hels as [Henc _].
  apply build_layers_entries in Hdls as [Hdec _].
  cbn. unfold range in Henc, Hdec. rewrite Henc, Hdec.
  rewrite !length_fmap, !length_seq.
  split_and!; try done;
    apply (NoDup_fmap_2 _), NoDup_seq.
Qed.

Lemma attention_setup_fields (embed_dim num_heads : Z) (dropout_rate : Q)
    (causal bias : bool) f :
  Attention.setup config embed_dim num_heads dropout_rate causal bias = Ok f →
  Attention.head_dim f * num_heads = embed_dim
  ∧ Attention.causal_mask f
    = (if causal
       then Some (Attention.make_causal_mask (Z.to_nat (image_length config)))
       else None)
  ∧ Forall (λ d, features d = embed_dim ∧ use_bias d = bias)
      [Attention.q_proj f; Attention.k_proj f; Attention.v_proj f;
       Attention.out_proj f].
Proof.
  unfold Attention.setup, floordiv.
  destruct (decide (num_heads = 0)); [done|]. cbn [bind].
  destruct (decide (embed_dim / num_heads * num_heads ≠ embed_dim))
    as [|Heq]; [done|].
  apply dec_stable in Heq. destruct causal.
  - unfold Attention.causal_mask_of.
    destruct (decide (image_length config < 0)); [done|].
    intros [= <-]. cbn. split_and!; [done|done|]. by repeat constructor.
  - intros [= <-]. cbn. split_and!; [done|done|]. by repeat constructor.
Qed.

Lemma decoder_layers_built m :
  FlaxBartForConditionalGenerationModule_setup ACT2FN config = Ok m →
  Forall (λ nl, FlaxBartEncoderLayer_setup ACT2FN config = Ok nl.2)
    (layers (enc_layers (encoder (model m))))
  ∧ Forall (λ nl, FlaxBartDecoderLayer_setup ACT2FN config = Ok nl.2)
      (layers (dec_layers (decoder (model m))))
  ∧ enc_embed_positions (encoder (model m))
    = {| num_embeddings := max_text_length config + 0;
         embed_features := d_model config;
         embedding_init_std := init_std config |}
  ∧ dec_embed_positions (decoder (model m))
    = {| num_embeddings := image_length config + 0;
         embed_features := d_model config;
         embedding_init_std := init_std config |}.
Proof.
  intros Hm.
  unfold FlaxBartForConditionalGenerationModule_setup, FlaxBartModule_setup,
    FlaxBartEncoder_setup, FlaxBartDecoder_setup,
    FlaxBartEncoderLayerCollection_setup,
    FlaxBartDecoderLayerCollection_setup in Hm.
  destruct (embed_scale_of config) as [scale|e]; [|done]. cbn [bind] in Hm.
  destruct (build_layers (FlaxBartEncoderLayer_setup ACT2FN config)
              (range (encoder_layers config))) as [els|e] eqn:Hels;
    [|done].
  destruct (build_layers (FlaxBartDecoderLayer_setup ACT2FN config)
              (range (decoder_layers config))) as [dls|e] eqn:Hdls;
    [|done].
  cbn in Hm. injection Hm as <-. cbn.
  apply build_layers_entries in Hels as [_ Henc].
  apply build_layers_entries in Hdls as [_ Hdec].
  done.
Qed.

(** X21. [decoder_ffn_dim] is never read: changing it leaves the module
    tree as it is, and the first feed-forward map of every decoder layer
    has the width [encoder_ffn_dim]. *)
Theorem decoder_ffn_dim_unused :
  (∀ width,
     FlaxBartForConditionalGenerationModule_setup ACT2FN
       (with_decoder_ffn_dim config width)
     = FlaxBartForConditionalGenerationModule_setup ACT2FN config)
  ∧ ∀ m, FlaxBartForConditionalGenerationModule_setup ACT2FN config = Ok m →
      Forall (λ nl, features (dl_fc1 nl.2) = encoder_ffn_dim config)
        (layers (dec_layers (decoder (model m)))).
Proof.
  split; [reflexivity|].
  intros m Hm. destruct (decoder_layers_built m Hm) as (_ & Hdec & _).
  eapply Forall_impl; [exact Hdec|]. intros [name l] Hl. cbn in Hl |- *.
  unfold FlaxBartDecoderLayer_setup in Hl.
  repeat match goal with
         | H : bind _ _ = Ok _ |- _ => apply bind_Ok in H as (? & ? & ?)
         end.
  by simplify_eq.
Qed.

(** X22. The causal mask is used in the decoder only: in a built tree the
    self-attention of every decoder layer carries the causal mask over
    [image_length] positions, as many as the decoder has position
    embeddings, while the cross-attention of the decoder and the
    self-attention of the encoder carry none. *)
Theorem causal_mask_only_in_decoder m :
  FlaxBartForConditionalGenerationModule_setup ACT2FN config = Ok m →
  let side := Z.to_nat (image_length config) in
  Forall (λ nl, Attention.causal_mask (el_self_attn nl.2) = None)
    (layers (enc_layers (encoder (model m))))
  ∧ Forall (λ nl,
              Attention.causal_mask (dl_self_attn nl.2)
              = Some (Attention.make_causal_mask side)
              ∧ Attention.causal_mask (dl_encoder_attn nl.2) = None)
      (layers (dec_layers (decoder (model m))))
  ∧ length (Attention.make_causal_mask side) = side
  ∧ Forall (λ row, length row = side) (Attention.make_causal_mask side)
  ∧ Z.of_nat side
    = Z.max 0 (num_embeddings (dec_embed_positions (decoder (model m)))).
Proof.
  intros Hm. cbn zeta.
  destruct (decoder_layers_built m Hm) as (Henc & Hdec & _ & Hpos).
  split_and!.
  - eapply Forall_impl; [exact Henc|]. intros [name l] Hl. cbn in Hl |- *.
    unfold FlaxBartEncoderLayer_setup in Hl. bind_inv Hl.
    injection Hl as <-. cbn.
    by apply attention_setup_fields in Hstep as (_ & -> & _).
  - eapply Forall_impl; [exact Hdec|]. intros [name l] Hl. cbn in Hl |- *.
    unfold FlaxBartDecoderLayer_setup in Hl. bind_inv Hl.
    injection Hl as <-. cbn.
    apply attention_setup_fields in Hstep as (_ & -> & _).
    by apply attention_setup_fields in Hstep1 as (_ & -> & _).
  - unfold Attention.make_causal_mask. by rewrite length_map, length_seq.
  - unfold Attention.make_causal_mask. apply Forall_fmap, Forall_forall.
    intros i _. cbn. by rewrite length_map, length_seq.
  - rewrite Hpos. cbn. lia.
Qed.

(** X23. In a built tree every attention module splits the embedding
    width evenly over its heads, and none of its four projections has a
    bias. *)
Theorem attention_heads_split_width m :
  FlaxBartForConditionalGenerationModule_setup ACT2FN config = Ok m →
  let even heads (a : Attention.fields) :=
    Attention.head_dim a * heads = d_model config
    ∧ Forall (λ d, features d = d_model config ∧ use_bias d = false)
        [Attention.q_proj a; Attention.k_proj a; Attention.v_proj a;
         Attention.out_proj a] in
  Forall (λ nl, even (encoder_attention_heads config) (el_self_attn nl.2))
    (layers (enc_layers (encoder (model m))))
  ∧ Forall (λ nl,
              even (decoder_attention_heads config) (dl_self_attn nl.2)
              ∧ even (decoder_attention_heads config) (dl_encoder_attn nl.2))
      (layers (dec_layers (decoder (model m)))).
Proof.
  intros Hm. cbn zeta.
  destruct (decoder_layers_built m Hm) as (Henc & Hdec & _).
  split.
  - eapply Forall_impl; [exact Henc|]. intros [name l] Hl. cbn in Hl |- *.
    unfold FlaxBartEncoderLayer_setup in Hl. bind_inv Hl.
    injection Hl as <-. cbn.
    by apply attention_setup_fields in Hstep as (? & _ & ?).
  - eapply Forall_impl; [exact Hdec|]. intros [name l] Hl. cbn in Hl |- *.
    unfold FlaxBartDecoderLayer_setup in Hl. bind_inv Hl.
    injection Hl as <-. cbn.
    apply attention_setup_fields in Hstep as (? & _ & ?).
    by apply attention_setup_fields in Hstep1 as (? & _ & ?).
Qed.

End module_tree_more.

(** ** Further properties of [FlaxBartAttention.setup] *)

Section attention_more.
Variable config : DalleBartConfig.
Variables (dropout_rate : Q) (causal bias : bool).

(** X24. The two ways [setup] refuses a head count: a head count of zero
    fails in the division itself, before the check and without its
    message; any other head count that does not divide the width raises
    the [ValueError] that names both numbers. *)
Theorem attention_setup_errors (embed_dim num_heads : Z) :
  (num_heads = 0 →
   Attention.setup config embed_dim num_heads dropout_rate causal bias
   = Raise ZeroDivisionError)
  ∧ (num_heads ≠ 0 → ¬ (num_heads | embed_dim) →
     Attention.setup config embed_dim num_heads dropout_rate causal bias
     = Raise (ValueError (MsgEmbedDimNotDivisible embed_dim num_heads))).
Proof.
  unfold Attention.setup, floordiv. split.
  - intros ->. by rewrite decide_True.
  - intros Hnz Hnd. rewrite decide_False by done. cbn [bind].
    rewrite decide_True; [done|].
    intros Heq. apply Hnd. exists (embed_dim / num_heads). lia.
Qed.

(** X25. The sign of the head count is not looked at: where the causal
    mask can be built, a negative head count that divides a positive
    width is accepted and gives a negative head width. *)
Theorem attention_setup_negative_heads (embed_dim num_heads : Z) :
  0 < embed_dim → num_heads < 0 → (num_heads | embed_dim) →
  Attention.mask_buildable config causal →
  ∃ f, Attention.setup config embed_dim num_heads dropout_rate causal bias
       = Ok f
       ∧ Attention.head_dim f < 0
       ∧ Attention.head_dim f * num_heads = embed_dim.
Proof.
  intros Hpos Hneg Hdiv Hmask.
  destruct (setup_divisible_ok config dropout_rate causal bias
              embed_dim num_heads) as (f & Hf & Hhead); [|done|].
  { split; [lia|done]. }
  exists f. split_and!; [done| |done]. nia.
Qed.

End attention_more.

Lemma attention_setup_errors_witness :
  Attention.setup Bart.example_config 8 0 0 true false
  = Raise ZeroDivisionError
  ∧ Attention.setup Bart.example_config 8 3 0 true false
    = Raise (ValueError (MsgEmbedDimNotDivisible 8 3)).
Proof.
  split.
  - apply (proj1 (attention_setup_errors Bart.example_config 0 true false 8 0)).
    reflexivity.
  - apply (proj2 (attention_setup_errors Bart.example_config 0 true false 8 3)).
    + lia.
    + intros [q Hq]. lia.
Defined.

Lemma attention_setup_negative_heads_witness :
  ∃ f, Attention.setup Bart.example_config 8 (-2) 0 true false = Ok f
       ∧ Attention.head_dim f < 0
       ∧ Attention.head_dim f * -2 = 8.
Proof.
  apply (attention_setup_negative_heads Bart.example_config 0 true false
           8 (-2)).
  - lia.
  - lia.
  - exists (-4). reflexivity.
  - right. cbn. lia.
Defined.

Lemma decode_returns_updated_cache_witness :
  Decode.decode example_loaded_model example_decoder_module
    (λ kernel _, kernel) (λ t, t)
    Decode.example_input_ids Decode.example_encoder_outputs
    (Some (Decode.all_ones 2 4)) (Some (Decode.all_ones 2 4))
    (Some (Decode.broadcast_arange 2 3))
    (Some [("0", {| Decode.cached_key := Decode.zeros [2; 4; 4; 2];
                    Decode.cached_value := Decode.zeros [2; 4; 4; 2];
                    Decode.cache_index := 0 |})])
    None None (Some false) false None None
  = Ok (Decode.TupleOutput
          {| shape := [2; 3]; data := [1; 2; 3; 4; 5; 6] |}
          (Some [("0", {| Decode.cached_key := Decode.zeros [2; 4; 4; 2];
                          Decode.cached_value := Decode.zeros [2; 4; 4; 2];
                          Decode.cache_index := 1 |})])
          []).
Proof.
  refine (decode_returns_updated_cache example_loaded_model
            example_decoder_module (λ kernel _, kernel) (λ t, t)
            Decode.example_input_ids Decode.example_encoder_outputs
            (Decode.all_ones 2 4) (Decode.all_ones 2 4)
            (Decode.broadcast_arange 2 3)
            ("0", {| Decode.cached_key := Decode.zeros [2; 4; 4; 2];
                     Decode.cached_value := Decode.zeros [2; 4; 4; 2];
                     Decode.cache_index := 0 |}) []
            None None (Some false) false None None
            {| shape := [2; 3]; data := [1; 2; 3; 4; 5; 6] |} _ _).
  - reflexivity.
  - vm_compute. reflexivity.
Defined.

Lemma decode_without_cache_returns_none_witness :
  Decode.decode example_loaded_model example_decoder_module
    (λ kernel _, kernel) (λ t, t)
    Decode.example_input_ids Decode.example_encoder_outputs
    (Some (Decode.all_ones 2 4)) (Some (Decode.all_ones 2 3))
    (Some (Decode.broadcast_arange 2 3)) None
    None None None false None None
  = Ok (Decode.CausalLMOutput
          {| shape := [2; 3]; data := [1; 2; 3; 4; 5; 6] |}
          None None None None).
Proof.
  refine (decode_without_cache_returns_none example_loaded_model
            example_decoder_module (λ kernel _, kernel) (λ t, t)
            Decode.example_input_ids Decode.example_encoder_outputs
            (Decode.all_ones 2 4) (Decode.all_ones 2 3)
            (Decode.broadcast_arange 2 3)
            None None None false None None
            {| shape := [2; 3]; data := [1; 2; 3; 4; 5; 6] |} _ _).
  - reflexivity.
  - vm_compute. reflexivity.
Defined.

Lemma decode_tied_never_returns_witness :
  ∃ m, Bart.FlaxBartForConditionalGenerationModule_setup
         Bart.example_ACT2FN Bart.example_tied_config = Ok m
       ∧ fails (Decode.decode
                  {| Decode.config := Bart.example_tied_config;
                     Decode.self_params := Bart.init_weights_abstract m |}
                  example_decoder_module (λ kernel _, kernel) (λ t, t)
                  Decode.example_input_ids Decode.example_encoder_outputs
                  None None None None None None None false None None).
Proof.
  eexists. split; [vm_compute; reflexivity|].
  refine (decode_tied_never_returns _ example_decoder_module
            (λ kernel _, kernel) (λ t, t) _
            Decode.example_input_ids Decode.example_encoder_outputs
            None None None None None None None false None None
            Bart.example_ACT2FN _ _ _).
  - vm_compute. reflexivity.
  - reflexivity.
  - apply dom_init_weights_abstract.
Defined.

Lemma prepare_inputs_all_ones_mask_witness :
  Decode.prepare_inputs_for_generation Decode.example_model
    Decode.example_input_ids 5 None (Some (Decode.all_ones 2 3)) None
  = Decode.prepare_inputs_for_generation Decode.example_model
      Decode.example_input_ids 5 None None None.
Proof.
  apply (prepare_inputs_all_ones_mask Decode.example_model
           Decode.example_input_ids 5 None None).
  - cbn. lia.
  - cbn. lia.
Defined.

Lemma prepare_inputs_position_counts_witness :
  ∃ g,
    Decode.prepare_inputs_for_generation Decode.example_model
      Decode.example_input_ids 5 None (Some Decode.example_mask) None = Ok g
    ∧ ∀ i row j, Decode.rows Decode.example_mask !! i = Some row →
        (j < length row)%nat →
        Decode.rows (Decode.g_decoder_position_ids g) !! i
          ≫= (λ ids, ids !! j)
        = Some (Generation.unmasked_upto j row - 1).
Proof.
  apply (prepare_inputs_position_counts Decode.example_model
           Decode.example_input_ids 5 None Decode.example_mask None).
  - lia.
  - intros mask [= <-]. cbn. lia.
  - repeat constructor; cbn; lia.
Defined.

Lemma example_tree_built :
  succeeds (Bart.FlaxBartForConditionalGenerationModule_setup
              Bart.example_ACT2FN Bart.example_config).
Proof. eexists. vm_compute. reflexivity. Qed.

Lemma layer_collections_names_witness :
  ∃ m, Bart.FlaxBartForConditionalGenerationModule_setup
         Bart.example_ACT2FN Bart.example_config = Ok m
       ∧ (Bart.layers (Bart.enc_layers (Bart.encoder (Bart.model m)))).*1
         = ["0"]
       ∧ (Bart.layers (Bart.dec_layers (Bart.decoder (Bart.model m)))).*1
         = ["0"; "1"].
Proof.
  destruct example_tree_built as [m Hm].
  exists m. split; [exact Hm|].
    destruct (layer_collections_names Bart.example_ACT2FN Bart.example_config m Hm)
      as (Henc & Hdec & _).
    rewrite Henc, Hdec. split; reflexivity.
Defined.

Lemma decoder_ffn_dim_unused_witness :
  ∃ m, Bart.FlaxBartForConditionalGenerationModule_setup
         Bart.example_ACT2FN Bart.example_config = Ok m
       ∧ Forall (λ nl, features (Bart.dl_fc1 nl.2) = 16)
           (Bart.layers (Bart.dec_layers (Bart.decoder (Bart.model m)))).
Proof.
  destruct example_tree_built as [m Hm].
  exists m. split; [exact Hm|].
    exact (proj2 (decoder_ffn_dim_unused Bart.example_ACT2FN Bart.example_config) m Hm).
Defined.

Lemma causal_mask_only_in_decoder_witness :
  ∃ m, Bart.FlaxBartForConditionalGenerationModule_setup
         Bart.example_ACT2FN Bart.example_config = Ok m
       ∧ Forall (λ nl, Attention.causal_mask (Bart.el_self_attn nl.2) = None)
           (Bart.layers (Bart.enc_layers (Bart.encoder (Bart.model m))))
       ∧ Forall (λ nl,
                   Attention.causal_mask (Bart.dl_self_attn nl.2)
                   = Some (Attention.make_causal_mask 4)
                   ∧ Attention.causal_mask (Bart.dl_encoder_attn nl.2) = None)
           (Bart.layers (Bart.dec_layers (Bart.decoder (Bart.model m)))).
Proof.
  destruct example_tree_built as [m Hm].
  exists m. split; [exact Hm|].
    destruct (causal_mask_only_in_decoder Bart.example_ACT2FN Bart.example_config m Hm)
      as (Henc & Hdec & _).
    split; [exact Henc|exact Hdec].
Defined.

Lemma attention_heads_split_width_witness :
  ∃ m, Bart.FlaxBartForConditionalGenerationModule_setup
         Bart.example_ACT2FN Bart.example_config = Ok m
       ∧ Forall (λ nl, Attention.head_dim (Bart.el_self_attn nl.2) * 2 = 8)
           (Bart.layers (Bart.enc_layers (Bart.encoder (Bart.model m))))
       ∧ Forall (λ nl, Attention.head_dim (Bart.dl_self_attn nl.2) * 4 = 8)
           (Bart.layers (Bart.dec_layers (Bart.decoder (Bart.model m)))).
Proof.
  destruct example_tree_built as [m Hm].
  exists m. split; [exact Hm|].
    destruct (attention_heads_split_width Bart.example_ACT2FN Bart.example_config m Hm)
      as [Henc Hdec].
    split.
    + eapply Forall_impl; [exact Henc|]. by intros nl [? _].
    + eapply Forall_impl; [exact Hdec|]. by intros nl [[? _] _].
Defined.

Lemma prepare_inputs_refuses_witness :
  fails (Decode.prepare_inputs_for_generation Decode.example_model
           Decode.example_input_ids 3 None (Some Decode.example_mask) None).
Proof.
  apply prepare_inputs_refuses. right. exists Decode.example_mask.
  split; [reflexivity|]. right. cbn. lia.
Defined.

Lemma generation_module_setup_requirements_witness :
  (Attention.exactly_divisible 8 2 ∧ "gelu" ∈ Bart.example_ACT2FN)
  ∧ (Attention.exactly_divisible 8 4 ∧ "gelu" ∈ Bart.example_ACT2FN
     ∧ 0 ≤ 4).
Proof.
  destruct (generation_module_setup_requirements Bart.example_ACT2FN
              Bart.example_config example_tree_built)
    as (_ & Hencoder & Hdecoder).
  split; [apply Hencoder|apply Hdecoder]; cbn; lia.
Defined.
